(** * MCP proxy (mcp_proxy.py): a shallow embedding of the aiohttp handlers

    The proxy is one class, [MCPProxy], with four request handlers and a
    helper [forward_request].  Every handler is an [async def] that threads
    two kinds of effect through its body: calls made on the shared
    [aiohttp.ClientSession] (the only way the upstream is ever contacted)
    and records written to the module logger.  Python exceptions are
    values of [PyExc]; [try ... except Exception] is [try_except], which
    lets through what is not an [Exception] subclass. *)

From Stdlib Require Import List Bool ZArith Lia PeanoNat.
From Stdlib.Strings Require Import String Ascii Byte.
From Stdlib.Floats Require Import PrimFloat.
Import ListNotations.
Open Scope list_scope.
Open Scope string_scope.

Set Implicit Arguments.
Set Warnings "-register-all".

(** ** Python values the handlers touch *)

Module Py.

(** [str.lower()] on the ASCII range (HTTP field names are ASCII tokens). *)
Definition lower_ascii (c : ascii) : ascii :=
  let n := nat_of_ascii c in
  if ((65 <=? n) && (n <=? 90))%nat%bool then ascii_of_nat (n + 32)%nat else c.

Fixpoint lower (s : string) : string :=
  match s with
  | EmptyString => EmptyString
  | String c r => String (lower_ascii c) (lower r)
  end.

Definition is_slash (c : ascii) : bool := Ascii.eqb c "/"%char.

(** [s.lstrip('/')] *)
Fixpoint lstrip_slash (s : string) : string :=
  match s with
  | String c r => if is_slash c then lstrip_slash r else s
  | EmptyString => EmptyString
  end.

(** [s.rstrip('/')] *)
Fixpoint rstrip_slash (s : string) : string :=
  match s with
  | EmptyString => EmptyString
  | String c r =>
      match rstrip_slash r with
      | EmptyString => if is_slash c then EmptyString else String c EmptyString
      | r' => String c r'
      end
  end.

(** [text.encode('utf-8')] for the ASCII literals of the source. *)
Definition encode (s : string) : list byte := list_byte_of_string s.

(** A [dict] with [str] keys: insertion-ordered, one entry per key.
    [d[k] = v] overwrites in place when [k] is present and appends
    otherwise; key equality is the case-sensitive one of [str]. *)
Section Dict.
Variable V : Type.

Definition dict := list (string * V).

Fixpoint dict_get (d : dict) (k : string) : option V :=
  match d with
  | [] => None
  | (k', v) :: d' => if String.eqb k' k then Some v else dict_get d' k
  end.

Fixpoint dict_set (d : dict) (k : string) (v : V) : dict :=
  match d with
  | [] => [(k, v)]
  | (k', v') :: d' =>
      if String.eqb k' k then (k', v) :: d' else (k', v') :: dict_set d' k v
  end.

(** [{key: value for key, value in items if keep(key)}]: one round of
    the loop, and the loop from the empty dict. *)
Definition comp_step (keep : string -> bool) (d : dict) (kv : string * V) : dict :=
  if keep (fst kv) then dict_set d (fst kv) (snd kv) else d.

Definition dict_comp (keep : string -> bool) (items : list (string * V)) : dict :=
  fold_left (comp_step keep) items [].

Definition keys (d : dict) : list string := map fst d.
End Dict.

(** What [json.loads] can return. *)
Inductive json : Type :=
| JNull
| JBool (b : bool)
| JInt (z : Z)
| JFloat (f : float)
| JString (s : string)
| JArray (l : list json)
| JObject (d : list (string * json)).

(** Truth value testing, as [not model] uses it. *)
Definition truthy (j : json) : bool :=
  match j with
  | JNull => false
  | JBool b => b
  | JInt z => negb (Z.eqb z 0)
  | JFloat f => negb (PrimFloat.eqb f PrimFloat.zero)
  | JString s => negb (String.eqb s "")
  | JArray l => match l with [] => false | _ => true end
  | JObject d => match d with [] => false | _ => true end
  end.

Definition type_name (j : json) : string :=
  match j with
  | JNull => "NoneType"
  | JBool _ => "bool"
  | JInt _ => "int"
  | JFloat _ => "float"
  | JString _ => "str"
  | JArray _ => "list"
  | JObject _ => "dict"
  end.

(** Exception classes that reach the handlers.  [CancelledError] derives
    from [BaseException] only (Python 3.8 and later); all the others are
    subclasses of [Exception]. *)
Inductive ExcClass : Type :=
| AttributeError
| RuntimeError
| JSONDecodeError
| UnicodeDecodeError
| ClientConnectorError      (* connection refused, DNS failure *)
| TimeoutError              (* asyncio.TimeoutError, from the session timeout *)
| ClientPayloadError        (* the peer broke off in the middle of a body *)
| ContentEncodingError      (* a coded payload that does not decode *)
| ServerDisconnectedError
| HTTPRequestEntityTooLarge (* request body above the application limit *)
| CancelledError.

Record PyExc : Type := Exc { exc_class : ExcClass; exc_str : string }.

Definition is_Exception (e : PyExc) : bool :=
  match exc_class e with
  | CancelledError => false
  | _ => true
  end.

Inductive result (A : Type) : Type :=
| Ok (a : A)
| Raise (e : PyExc).
Arguments Ok {A} a.
Arguments Raise {A} e.

End Py.
Import Py.

(** ** HTTP messages *)

(** The items of a [CIMultiDict]: field order and repeated names are kept. *)
Definition Headers : Type := list (string * string).

(** The inbound [aiohttp.web.Request].  The transport hands the payload over
    in chunks; [req_read_error] is what [request.read()] raises, if anything,
    once the chunks are consumed (an oversized body, a reset connection). *)
Record Request : Type := {
  req_method : string;
  req_path : string;
  req_headers : Headers;
  req_chunks : list (list byte);
  req_read_error : option PyExc
}.

(** The [aiohttp.web.Response] a handler returns. *)
Record Response : Type := {
  resp_status : Z;
  resp_headers : Headers;
  resp_body : list byte
}.

(** [web.Response(status=s, text=t)] *)
Definition web_Response_text (s : Z) (t : string) : Response :=
  {| resp_status := s;
     resp_headers := [("Content-Type", "text/plain; charset=utf-8")];
     resp_body := encode t |}.

(** [web.Response(body=b, status=s, headers=h)] *)
Definition web_Response_body (b : list byte) (s : Z) (h : dict string) : Response :=
  {| resp_status := s; resp_headers := h; resp_body := b |}.

(** A call on the client session: the arguments of one [session.post] or
    [session.get] made on an open session ([call_headers] is the [headers=]
    argument, [call_data] the [data=] argument).  What aiohttp puts on the
    wire for a call (its own Host, User-Agent and Accept-Encoding fields, a
    second request when it follows a redirect) is below this record. *)
Record SessionCall : Type := {
  call_method : string;
  call_url : string;
  call_headers : dict string;
  call_data : list byte
}.

(** The [aiohttp.ClientResponse] a call hands back: status line and header
    fields are there when [async with] enters; [up_chunks] is the body the
    upstream sent, as it arrives, and [up_read_error] what breaks the
    transfer off, if anything.  [up_elapsed_ms] is the time the upstream
    took to answer; no line of the proxy looks at it. *)
Record ClientResponse : Type := {
  up_status : Z;
  up_headers : Headers;
  up_chunks : list (list byte);
  up_read_error : option PyExc;
  up_elapsed_ms : nat
}.

Inductive Outcome : Type :=
| Responded (r : ClientResponse)
| ConnectFailed (e : PyExc).

(** The upstream, as the proxy observes it through the session: the
    outcome of the [n]-th call made since the process started. *)
Definition Upstream : Type := nat -> SessionCall -> Outcome.

(** ** Effects: session calls and log records, with exceptions *)

(** [calls] lists the calls made on the session, oldest first (nothing
    reaches the upstream but through one of them); [logged] the messages
    given to [logger.error]. *)
Record State : Type := {
  calls : list SessionCall;
  logged : list string
}.

Definition M (A : Type) : Type := State -> result A * State.

Definition ret {A} (a : A) : M A := fun st => (Ok a, st).

Definition raise {A} (e : PyExc) : M A := fun st => (Raise e, st).

Definition bind {A B} (m : M A) (k : A -> M B) : M B :=
  fun st =>
    match m st with
    | (Ok a, st') => k a st'
    | (Raise e, st') => (Raise e, st')
    end.

Notation "x <- m ;; k" := (bind m (fun x => k))
  (at level 61, m at next level, right associativity).
Notation "m ;;; k" := (bind m (fun _ => k))
  (at level 61, right associativity).

(** [try: body / except Exception as e: handler(e)] *)
Definition try_except {A} (body : M A) (handler : PyExc -> M A) : M A :=
  fun st =>
    match body st with
    | (Ok a, st') => (Ok a, st')
    | (Raise e, st') => if is_Exception e then handler e st' else (Raise e, st')
    end.

(** [logger.error(msg)] *)
Definition logger_error (msg : string) : M unit :=
  fun st => (Ok tt, {| calls := calls st; logged := (logged st ++ [msg])%list |}).

(** [await request.read()]: the whole payload, accumulated into one
    [bytes] object (and kept, so that a second call returns it again). *)
Definition request_read (request : Request) : M (list byte) :=
  match req_read_error request with
  | Some e => raise e
  | None => ret (List.concat (req_chunks request))
  end.

(** The content decoder that the response parser of aiohttp installs for
    an answer with the given header fields, if it installs one:
    [ClientSession()] decodes by default ([auto_decompress]) what comes
    with a [Content-Encoding] of gzip, deflate or br, and hands over any
    other payload as it came. *)
Definition Decoder : Type := Headers -> option (list byte -> result (list byte)).

(** What [response.read()] returns or raises: the whole payload, decoded
    when a decoder is installed. *)
Definition read_payload (decoder : Decoder) (response : ClientResponse)
    : result (list byte) :=
  match up_read_error response with
  | Some e => Raise e
  | None =>
      match decoder (up_headers response) with
      | Some decode => decode (List.concat (up_chunks response))
      | None => Ok (List.concat (up_chunks response))
      end
  end.

(** [await response.read()] *)
Definition response_read (decoder : Decoder) (response : ClientResponse)
    : M (list byte) :=
  fun st => (read_payload decoder response, st).

(** ** class MCPProxy *)

Record ClientSession : Type := { closed : bool }.

Record MCPProxy : Type := {
  ollama_url : string;
  openwebui_url : string;
  session : option ClientSession
}.

(** [__init__] *)
Definition MCPProxy_init (ollama openwebui : string) : MCPProxy :=
  {| ollama_url := rstrip_slash ollama;
     openwebui_url := rstrip_slash openwebui;
     session := None |}.

Definition start_session (self : MCPProxy) : MCPProxy :=
  {| ollama_url := ollama_url self;
     openwebui_url := openwebui_url self;
     session := Some {| closed := false |} |}.

Definition stop_session (self : MCPProxy) : MCPProxy :=
  match session self with
  | Some _ =>
      {| ollama_url := ollama_url self;
         openwebui_url := openwebui_url self;
         session := Some {| closed := true |} |}
  | None => self
  end.

Section Handlers.

(** [json.loads] applied to the decoded text of a body. *)
Variable loads : list byte -> result json.

Variable decoder : Decoder.
Variable upstream : Upstream.

(** [self.session.post(...)] and [self.session.get(...)], up to the point
    where [async with] has the response head.  Without a session the
    attribute lookup fails; on a closed one aiohttp refuses; in both
    cases nothing is sent. *)
Definition session_request (self : MCPProxy) (r : SessionCall) : M ClientResponse :=
  fun st =>
    match session self with
    | None =>
        (Raise (Exc AttributeError
                  ("'NoneType' object has no attribute '" ++ lower (call_method r) ++ "'")),
         st)
    | Some s =>
        if closed s then (Raise (Exc RuntimeError "Session is closed"), st)
        else
          let st' := {| calls := (calls st ++ [r])%list; logged := logged st |} in
          match upstream (List.length (calls st)) r with
          | Responded c => (Ok c, st')
          | ConnectFailed e => (Raise e, st')
          end
    end.

Definition session_post (self : MCPProxy) (url : string)
    (headers : dict string) (data : list byte) : M ClientResponse :=
  session_request self
    {| call_method := "POST"; call_url := url; call_headers := headers; call_data := data |}.

Definition session_get (self : MCPProxy) (url : string) : M ClientResponse :=
  session_request self
    {| call_method := "GET"; call_url := url; call_headers := []; call_data := [] |}.

(** [await request.json()] *)
Definition request_json (request : Request) : M json :=
  raw <- request_read request ;;
  match loads raw with
  | Ok j => ret j
  | Raise e => raise e
  end.

(** [body.get('model', '')]: only a [dict] has [get]. *)
Definition py_get (body : json) (key : string) (default : json) : M json :=
  match body with
  | JObject d =>
      match dict_get d key with
      | Some v => ret v
      | None => ret default
      end
  | other =>
      raise (Exc AttributeError
               ("'" ++ type_name other ++ "' object has no attribute 'get'"))
  end.

Definition not_host (key : string) : bool := negb (String.eqb (lower key) "host").

Definition forward_request (self : MCPProxy) (request : Request) (endpoint : string)
    : M Response :=
  try_except
    (body <- request_read request ;;
     let target_url := ollama_url self ++ "/" ++ lstrip_slash endpoint in
     response <- session_post self target_url
                   (dict_comp not_host (req_headers request)) body ;;
     content <- response_read decoder response ;;
     ret (web_Response_body content (up_status response)
            (dict_comp (fun _ => true) (up_headers response))))
    (fun e =>
       logger_error ("Error forwarding request to " ++ endpoint ++ ": " ++ exc_str e) ;;;
       ret (web_Response_text 500 "Internal Server Error")).

Definition handle_mcp_request (self : MCPProxy) (request : Request) : M Response :=
  try_except
    (body <- request_json request ;;
     model <- py_get body "model" (JString "") ;;
     if negb (truthy model) then ret (web_Response_text 400 "Model name required")
     else forward_request self request "generate")
    (fun e =>
       logger_error ("Error handling MCP request: " ++ exc_str e) ;;;
       ret (web_Response_text 500 "Internal Server Error")).

Definition handle_chat_request (self : MCPProxy) (request : Request) : M Response :=
  forward_request self request "chat".

Definition handle_completion_request (self : MCPProxy) (request : Request) : M Response :=
  forward_request self request "generate".

Definition handle_health_check (self : MCPProxy) (request : Request) : M Response :=
  try_except
    (response <- session_get self (ollama_url self ++ "/health") ;;
     if Z.eqb (up_status response) 200 then ret (web_Response_text 200 "OK")
     else ret (web_Response_text 503 "Service Unavailable"))
    (fun e =>
       logger_error ("Health check failed: " ++ exc_str e) ;;;
       ret (web_Response_text 503 "Service Unavailable")).

End Handlers.

(** ** create_app: the route table and its dispatch *)

Inductive Handler : Type :=
| Hmcp
| Hchat
| Hcompletion
| Hhealth.

Record Route : Type := {
  route_method : string;
  route_path : string;
  route_handler : Handler
}.

Definition add_post (path : string) (h : Handler) : list Route :=
  [{| route_method := "POST"; route_path := path; route_handler := h |}].

(** [add_get] registers the handler for HEAD as well ([allow_head=True]). *)
Definition add_get (path : string) (h : Handler) : list Route :=
  [{| route_method := "GET"; route_path := path; route_handler := h |};
   {| route_method := "HEAD"; route_path := path; route_handler := h |}].

Record Application : Type := {
  app_proxy : MCPProxy;
  app_routes : list Route
}.

(** The four [app.router.add_*] lines of [create_app]. *)
Definition routes : list Route :=
  (add_post "/mcp" Hmcp ++ add_post "/chat" Hchat
   ++ add_post "/completion" Hcompletion ++ add_get "/health" Hhealth)%list.

Definition create_app (ollama openwebui : string) : Application :=
  {| app_proxy := MCPProxy_init ollama openwebui; app_routes := routes |}.

(** [on_startup]: [init_app] *)
Definition init_app (app : Application) : Application :=
  {| app_proxy := start_session (app_proxy app); app_routes := app_routes app |}.

(** [on_cleanup]: [cleanup_app] *)
Definition cleanup_app (app : Application) : Application :=
  {| app_proxy := stop_session (app_proxy app); app_routes := app_routes app |}.

(** [sorted(set(names))], by insertion. *)
Fixpoint insert_sorted (name : string) (sorted : list string) : list string :=
  match sorted with
  | [] => [name]
  | first :: rest =>
      match String.compare name first with
      | Lt => name :: sorted
      | Eq => sorted
      | Gt => first :: insert_sorted name rest
      end
  end.

Definition sorted_set (names : list string) : list string :=
  fold_right insert_sorted [] names.

(** [HTTPMethodNotAllowed]: the 405 of the router, with the methods the
    path does accept in its [Allow] field. *)
Definition method_not_allowed (allowed : list string) : Response :=
  {| resp_status := 405;
     resp_headers := [("Content-Type", "text/plain; charset=utf-8");
                      ("Allow", String.concat "," (sorted_set allowed))];
     resp_body := encode "405: Method Not Allowed" |}.

(** The router of aiohttp: a path no route has gives 404, a path some route
    has under another method gives 405. *)
Definition resolve (routes : list Route) (method path : string) : Handler + Response :=
  match filter (fun r => String.eqb (route_path r) path) routes with
  | [] => inr (web_Response_text 404 "404: Not Found")
  | same_path =>
      match find (fun r => String.eqb (route_method r) method) same_path with
      | Some r => inl (route_handler r)
      | None => inr (method_not_allowed (map route_method same_path))
      end
  end.

Section Serve.

Variable loads : list byte -> result json.
Variable decoder : Decoder.
Variable upstream : Upstream.

Definition run_handler (h : Handler) (self : MCPProxy) (request : Request) : M Response :=
  match h with
  | Hmcp => handle_mcp_request loads decoder upstream self request
  | Hchat => handle_chat_request decoder upstream self request
  | Hcompletion => handle_completion_request decoder upstream self request
  | Hhealth => handle_health_check upstream self request
  end.

Definition app_handle (app : Application) (request : Request) : M Response :=
  match resolve (app_routes app) (req_method request) (req_path request) with
  | inl h => run_handler h (app_proxy app) request
  | inr reply => ret reply
  end.

End Serve.

(** ** A concrete decoder, upstreams and requests to run the handlers on *)

Module Example.

Definition dq : ascii := ascii_of_nat 34.
Definition backslash : ascii := ascii_of_nat 92.

(** [q s] is [s] between double quotes. *)
Definition q (s : string) : string := String dq s ++ String dq EmptyString.

Definition is_ws (c : ascii) : bool :=
  let n := nat_of_ascii c in
  ((n =? 32) || (n =? 9) || (n =? 10) || (n =? 13))%nat%bool.

Fixpoint skip_ws (s : string) : string :=
  match s with
  | String c r => if is_ws c then skip_ws r else s
  | EmptyString => EmptyString
  end.

Fixpoint strip_prefix (p s : string) : option string :=
  match p, s with
  | EmptyString, _ => Some s
  | String a p', String b s' => if Ascii.eqb a b then strip_prefix p' s' else None
  | String _ _, EmptyString => None
  end.

(** The characters up to the closing quote (escapes are not covered). *)
Fixpoint scan_string (s : string) : option (string * string) :=
  match s with
  | EmptyString => None
  | String c r =>
      if Ascii.eqb c dq then Some (EmptyString, r)
      else if Ascii.eqb c backslash then None
      else match scan_string r with
           | Some (t, rest) => Some (String c t, rest)
           | None => None
           end
  end.

Definition digit (c : ascii) : option Z :=
  let n := nat_of_ascii c in
  if ((48 <=? n) && (n <=? 57))%nat%bool then Some (Z.of_nat (n - 48)) else None.

Fixpoint scan_digits (s : string) (acc : Z) : Z * string :=
  match s with
  | String c r =>
      match digit c with
      | Some d => scan_digits r (10 * acc + d)%Z
      | None => (acc, s)
      end
  | EmptyString => (acc, s)
  end.

(** A zero followed by another digit: no JSON number starts so. *)
Definition leading_zero (s : string) : bool :=
  match s with
  | String "0"%char (String c _) =>
      match digit c with
      | Some _ => true
      | None => false
      end
  | _ => false
  end.

(** An integer literal (fractions and exponents are not covered). *)
Definition scan_int (s : string) : option (Z * string) :=
  let (neg, s1) := match s with
                   | String "-"%char r => (true, r)
                   | _ => (false, s)
                   end in
  match s1 with
  | String c _ =>
      match digit c with
      | Some _ =>
          let (n, rest) := scan_digits s1 0%Z in
          if leading_zero s1 then None
          else
            match rest with
            | String "."%char _ | String "e"%char _ | String "E"%char _ => None
            | _ => Some (if neg then (- n)%Z else n, rest)
            end
      | None => None
      end
  | EmptyString => None
  end.

Fixpoint parse_value (fuel : nat) (s : string) : option (json * string) :=
  match fuel with
  | O => None
  | S fuel' =>
      match skip_ws s with
      | String "{"%char r =>
          match skip_ws r with
          | String "}"%char r' => Some (JObject [], r')
          | _ => parse_members fuel' r []
          end
      | String "["%char r =>
          match skip_ws r with
          | String "]"%char r' => Some (JArray [], r')
          | _ => parse_elements fuel' r []
          end
      | String c r as s' =>
          if Ascii.eqb c dq then
            match scan_string r with
            | Some (t, rest) => Some (JString t, rest)
            | None => None
            end
          else
            match strip_prefix "null" s', strip_prefix "true" s', strip_prefix "false" s' with
            | Some rest, _, _ => Some (JNull, rest)
            | _, Some rest, _ => Some (JBool true, rest)
            | _, _, Some rest => Some (JBool false, rest)
            | _, _, _ =>
                match scan_int s' with
                | Some (n, rest) => Some (JInt n, rest)
                | None => None
                end
            end
      | EmptyString => None
      end
  end
with parse_members (fuel : nat) (s : string) (acc : dict json)
    : option (json * string) :=
  match fuel with
  | O => None
  | S fuel' =>
      match skip_ws s with
      | String c r =>
          if Ascii.eqb c dq then
            match scan_string r with
            | Some (k, rest) =>
                match skip_ws rest with
                | String ":"%char rest' =>
                    match parse_value fuel' rest' with
                    | Some (v, rest'') =>
                        let acc' := dict_set acc k v in
                        match skip_ws rest'' with
                        | String ","%char more => parse_members fuel' more acc'
                        | String "}"%char after => Some (JObject acc', after)
                        | _ => None
                        end
                    | None => None
                    end
                | _ => None
                end
            | None => None
            end
          else None
      | EmptyString => None
      end
  end
with parse_elements (fuel : nat) (s : string) (acc : list json)
    : option (json * string) :=
  match fuel with
  | O => None
  | S fuel' =>
      match parse_value fuel' s with
      | Some (v, rest) =>
          match skip_ws rest with
          | String ","%char more => parse_elements fuel' more (acc ++ [v])%list
          | String "]"%char after => Some (JArray (acc ++ [v])%list, after)
          | _ => None
          end
      | None => None
      end
  end.

(** A decoder for the fragment of JSON without escapes and fractions:
    enough for the bodies below (the message of a failure is cut short:
    [json.loads] adds the line, column and offset).  The theorems hold for
    every decoder. *)
Definition loads (raw : list byte) : result json :=
  let s := string_of_list_byte raw in
  match parse_value (S (String.length s)) s with
  | Some (j, rest) =>
      match skip_ws rest with
      | EmptyString => Ok j
      | _ => Raise (Exc JSONDecodeError "Extra data")
      end
  | None => Raise (Exc JSONDecodeError "Expecting value")
  end.

(** CRC-32 as gzip uses it. *)
Definition crc32_bit (c : N) : N :=
  if N.testbit c 0 then N.lxor (N.shiftr c 1) 0xEDB88320%N else N.shiftr c 1.

Definition crc32_byte (crc : N) (b : byte) : N :=
  let c := N.lxor crc (Byte.to_N b) in
  crc32_bit (crc32_bit (crc32_bit (crc32_bit
    (crc32_bit (crc32_bit (crc32_bit (crc32_bit c))))))).

Definition crc32 (data : list byte) : N :=
  N.lxor (fold_left crc32_byte data 0xFFFFFFFF%N) 0xFFFFFFFF%N.

Definition le16 (b0 b1 : byte) : N := (Byte.to_N b0 + 256 * Byte.to_N b1)%N.

Definition le32 (b0 b1 b2 b3 : byte) : N :=
  (le16 b0 b1 + 65536 * le16 b2 b3)%N.

(** A deflate stream made of stored blocks (type 00) only. *)
Fixpoint inflate_stored (fuel : nat) (s acc : list byte)
    : option (list byte * list byte) :=
  match fuel with
  | O => None
  | S fuel' =>
      match s with
      | head :: l0 :: l1 :: n0 :: n1 :: rest =>
          let len := le16 l0 l1 in
          if (N.eqb (N.land (N.shiftr (Byte.to_N head) 1) 3) 0
              && N.eqb (len + le16 n0 n1) 65535
              && (N.to_nat len <=? List.length rest)%nat)%bool
          then
            let acc' := (acc ++ firstn (N.to_nat len) rest)%list in
            let rest' := skipn (N.to_nat len) rest in
            if N.testbit (Byte.to_N head) 0 then Some (acc', rest')
            else inflate_stored fuel' rest' acc'
          else None
      | _ => None
      end
  end.

Definition undecodable : PyExc :=
  Exc ContentEncodingError "Can not decode content-encoding: gzip".

(** One gzip member without optional header parts, its deflate stream made
    of stored blocks, checksum and length verified: the part of gzip that
    the answer below needs. *)
Definition gunzip (wire : list byte) : result (list byte) :=
  match wire with
  | x1f :: x8b :: x08 :: x00 :: _ :: _ :: _ :: _ :: _ :: _ :: stream =>
      match inflate_stored (S (List.length stream)) stream [] with
      | Some (data, [c0; c1; c2; c3; s0; s1; s2; s3]) =>
          if (N.eqb (le32 c0 c1 c2 c3) (crc32 data)
              && N.eqb (le32 s0 s1 s2 s3) (N.of_nat (List.length data)))%bool
          then Ok data
          else Raise undecodable
      | _ => Raise undecodable
      end
  | _ => Raise undecodable
  end.

(** The first [Content-Encoding] field, lowercased. *)
Definition content_coding (headers : Headers) : option string :=
  match find (fun kv => String.eqb (lower (fst kv)) "content-encoding") headers with
  | Some (_, value) => Some (lower value)
  | None => None
  end.

(** A client that decodes gzip, and nothing else. *)
Definition decoder : Decoder :=
  fun headers =>
    match content_coding headers with
    | Some coding => if String.eqb coding "gzip" then Some gunzip else None
    | None => None
    end.

(** The application as [main] builds it from the default environment,
    after its startup hook has run. *)
Definition app : Application :=
  init_app (create_app "http://localhost:11434" "http://localhost:3000").

Definition proxy : MCPProxy := app_proxy app.

Definition st0 : State := {| calls := []; logged := [] |}.

Definition reply_ok : ClientResponse :=
  {| up_status := 200;
     up_headers := [("Content-Type", "application/json");
                    ("Connection", "keep-alive");
                    ("Transfer-Encoding", "chunked")];
     up_chunks := [encode ("{" ++ q "response" ++ ":" ++ String dq "Hel");
                   encode ("lo" ++ String dq EmptyString ++ "}")];
     up_read_error := None;
     up_elapsed_ms := 12 |}.

Definition refused : PyExc :=
  Exc ClientConnectorError "Cannot connect to host localhost:11434".

Definition timed_out : PyExc := Exc TimeoutError "".

Definition up_ok : Upstream := fun _ _ => Responded reply_ok.

Definition up_refused : Upstream := fun _ _ => ConnectFailed refused.

Definition up_timeout : Upstream := fun _ _ => ConnectFailed timed_out.

(** Refuses the first connection and answers from the second on. *)
Definition up_flaky : Upstream :=
  fun n _ => match n with
             | O => ConnectFailed refused
             | S _ => Responded reply_ok
             end.

(** Answers 200, after two and a half seconds. *)
Definition reply_slow : ClientResponse :=
  {| up_status := 200; up_headers := []; up_chunks := [];
     up_read_error := None; up_elapsed_ms := 2500 |}.

Definition up_slow : Upstream := fun _ _ => Responded reply_slow.

(** Answers with [n] one-byte chunks. *)
Definition reply_long (n : nat) : ClientResponse :=
  {| up_status := 200; up_headers := [];
     up_chunks := repeat [x61] n;
     up_read_error := None; up_elapsed_ms := 12 |}.

Definition up_long (n : nat) : Upstream := fun _ _ => Responded (reply_long n).

Definition post (path : string) (headers : Headers) (chunks : list (list byte)) : Request :=
  {| req_method := "POST"; req_path := path; req_headers := headers;
     req_chunks := chunks; req_read_error := None |}.

Definition inbound_headers : Headers :=
  [("Host", "proxy.local:8000");
   ("Connection", "keep-alive");
   ("Content-Type", "application/json");
   ("X-Trace", "a");
   ("X-Trace", "b")].

Definition body_with_model : list (list byte) :=
  [encode ("{" ++ q "model" ++ ":" ++ q "llama3" ++ ",");
   encode (q "prompt" ++ ":" ++ q "hi" ++ "}")].


Definition body_not_json : list (list byte) := [encode "model=llama3"].

Definition mcp_with_model : Request := post "/mcp" inbound_headers body_with_model.
Definition mcp_not_json : Request := post "/mcp" inbound_headers body_not_json.
Definition chat_with_model : Request := post "/chat" inbound_headers body_with_model.

Definition get_health : Request :=
  {| req_method := "GET"; req_path := "/health";
     req_headers := [("Host", "proxy.local:8000")];
     req_chunks := []; req_read_error := None |}.

(** A body above the limit of the application: reading it raises. *)
Definition too_large : PyExc := Exc HTTPRequestEntityTooLarge "Request Entity Too Large".

Definition oversized : Request :=
  {| req_method := "POST"; req_path := "/chat"; req_headers := inbound_headers;
     req_chunks := body_with_model; req_read_error := Some too_large |}.

(** Answers 200 and breaks off after the first chunk. *)
Definition payload_error : PyExc :=
  Exc ClientPayloadError "Response payload is not completed".

Definition reply_broken : ClientResponse :=
  {| up_status := 200; up_headers := [("Content-Type", "application/json")];
     up_chunks := [encode "{"]; up_read_error := Some payload_error;
     up_elapsed_ms := 12 |}.

Definition up_broken : Upstream := fun _ _ => Responded reply_broken.

(** Answers 200 with a gzip body: the 20 bytes of the JSON text of
    [reply_ok] in one stored block, 43 bytes on the wire. *)
Definition gzip_body : list byte :=
  [x1f; x8b; x08; x00; x00; x00; x00; x00; x00; xff;
   x01; x14; x00; xeb; xff;
   x7b; x22; x72; x65; x73; x70; x6f; x6e; x73; x65; x22; x3a; x22; x48; x65;
   x6c; x6c; x6f; x22; x7d;
   x5f; x7a; xdd; xc4; x14; x00; x00; x00].

Definition reply_gzip : ClientResponse :=
  {| up_status := 200;
     up_headers := [("Content-Type", "application/json");
                    ("Content-Encoding", "gzip");
                    ("Content-Length", "43")];
     up_chunks := [gzip_body]; up_read_error := None; up_elapsed_ms := 12 |}.


(** Header fields with no name twice. *)
Definition plain_headers : Headers :=
  [("Host", "proxy.local:8000");
   ("Connection", "keep-alive");
   ("Content-Type", "application/json");
   ("X-Trace", "a")].

Definition chat_plain : Request := post "/chat" plain_headers body_with_model.

End Example.

(** * Notions the statements use *)

Unset Implicit Arguments.

(** No [Exception] leaves [m]: it returns, or raises what [except Exception]
    does not catch. *)
Definition no_Exception_escapes {A} (m : M A) : Prop :=
  forall st, match fst (m st) with
             | Ok _ => True
             | Raise e => is_Exception e = false
             end.

(** The call [forward_request] makes: the arguments of its [session.post]. *)
Definition outbound (self : MCPProxy) (request : Request) (endpoint : string)
    : SessionCall :=
  {| call_method := "POST";
     call_url := ollama_url self ++ "/" ++ lstrip_slash endpoint;
     call_headers := dict_comp not_host (req_headers request);
     call_data := List.concat (req_chunks request) |}.

(** The probe of [handle_health_check]. *)
Definition probe (self : MCPProxy) : SessionCall :=
  {| call_method := "GET"; call_url := ollama_url self ++ "/health";
     call_headers := []; call_data := [] |}.

Definition record_call (st : State) (r : SessionCall) : State :=
  {| calls := (calls st ++ [r])%list; logged := logged st |}.

Definition record_logged (st : State) (msg : string) : State :=
  {| calls := calls st; logged := (logged st ++ [msg])%list |}.

Definition session_open (self : MCPProxy) : Prop :=
  session self = Some {| closed := false |}.

(** The body decodes to an object whose [model] entry is truthy. *)
Definition has_model (loads : list byte -> result json) (request : Request) : Prop :=
  exists d v,
    loads (List.concat (req_chunks request)) = Ok (JObject d)
    /\ dict_get d "model" = Some v
    /\ truthy v = true.

(** The [model] entry of an object is absent or falsy (the empty string,
    [None], [False], a zero, an empty list or dict). *)
Definition lacks_model (d : dict json) : Prop :=
  match dict_get d "model" with
  | None => True
  | Some v => truthy v = false
  end.




(** The causes the retry rule calls transient: a refused connection and a
    timeout. *)
Definition transient (e : PyExc) : bool :=
  match exc_class e with
  | ClientConnectorError | TimeoutError => true
  | _ => false
  end.

(** What is asked after a transient connect failure: one retry, that is,
    two requests sent in all. *)
Definition retried_once (decoder : Decoder) (upstream : Upstream) (self : MCPProxy) (request : Request)
    (endpoint : string) (st : State) : Prop :=
  forall e,
    upstream (List.length (calls st)) (outbound self request endpoint) = ConnectFailed e ->
    transient e = true ->
    List.length (calls (snd (forward_request decoder upstream self request endpoint st)))
    = (List.length (calls st) + 2)%nat.

(** The cause categories a reply body is asked to tell apart. *)
Inductive Cause : Type :=
| Connect
| Timeout
| UpstreamError
| Validation.

Definition reply_names_cause (classify : list byte -> Cause)
    (loads : list byte -> result json) (decoder : Decoder) (upstream : Upstream)
    (app : Application) (request : Request) (st : State) (cause : Cause) : Prop :=
  exists resp st',
    app_handle loads decoder upstream app request st = (Ok resp, st')
    /\ classify (resp_body resp) = cause.

(** The states of the health monitor, and the state a probe outcome stands
    for under a latency threshold: a 200 in time is [Healthy], a 200 above
    the threshold [Degraded], anything else [Down]. *)
Inductive HealthStatus : Type :=
| Healthy
| Degraded
| Down.

Definition observed_status (threshold_ms : nat) (o : Outcome) : HealthStatus :=
  match o with
  | Responded c =>
      if Z.eqb (up_status c) 200 then
        if (threshold_ms <? up_elapsed_ms c)%nat then Degraded else Healthy
      else Down
  | ConnectFailed _ => Down
  end.

Definition health_reply_follows_status (threshold_ms : nat)
    (loads : list byte -> result json) (decoder : Decoder) (upstream : Upstream)
    (app : Application) (request : Request) (st : State) : Prop :=
  exists resp st',
    app_handle loads decoder upstream app request st = (Ok resp, st')
    /\ match observed_status threshold_ms
               (upstream (List.length (calls st)) (probe (app_proxy app))) with
       | Healthy => resp_status resp = 200%Z /\ resp_body resp = encode "OK"
       | Degraded | Down => resp_status resp = 503%Z
       end.

(** What is asked of the health query: an answer from a stored result,
    with no request to the upstream. *)
Definition answered_without_probe
    (loads : list byte -> result json) (decoder : Decoder) (upstream : Upstream)
    (app : Application) (request : Request) (st : State) : Prop :=
  calls (snd (app_handle loads decoder upstream app request st)) = calls st.

(** What is asked of the relay: some bound [B] that no body handed on in one
    piece exceeds, be it the data of a call or the body of a reply. *)
Definition bounded_buffers (B : nat) : Prop :=
  forall decoder upstream self request endpoint st resp st',
    forward_request decoder upstream self request endpoint st = (Ok resp, st') ->
    (List.length (resp_body resp) <= B)%nat
    /\ forall r, In r (calls st') ->
         In r (calls st) \/ (List.length (call_data r) <= B)%nat.

(** What is asked of the outbound request: neither [host] nor [connection]
    among its fields. *)
Definition hop_headers_dropped (decoder : Decoder) (upstream : Upstream) (self : MCPProxy)
    (request : Request) (endpoint : string) (st : State) : Prop :=
  forall r k v,
    In r (calls (snd (forward_request decoder upstream self request endpoint st))) ->
    In (k, v) (call_headers r) ->
    lower k <> "host" /\ lower k <> "connection".

(** [n] slashes in a row. *)
Fixpoint slashes (n : nat) : string :=
  match n with
  | O => EmptyString
  | S n' => String "/"%char (slashes n')
  end.

Definition starts_with_slash (s : string) : bool :=
  match s with
  | String c _ => is_slash c
  | EmptyString => false
  end.

Fixpoint ends_with_slash (s : string) : bool :=
  match s with
  | EmptyString => false
  | String c EmptyString => is_slash c
  | String _ r => ends_with_slash r
  end.

(** * Properties *)

(** ** Runs on the concrete world *)

Example rstrip_slash_url :
  rstrip_slash "http://localhost:11434//" = "http://localhost:11434".
Proof. reflexivity. Qed.

Example lstrip_slash_endpoint : lstrip_slash "//generate/" = "generate/".
Proof. reflexivity. Qed.

Example lower_field_name : lower "X-HoST_9" = "x-host_9".
Proof. reflexivity. Qed.

Example truthy_floats :
  truthy (JFloat PrimFloat.zero) = false
  /\ truthy (JFloat PrimFloat.neg_zero) = false
  /\ truthy (JFloat PrimFloat.nan) = true.
Proof. repeat split. Qed.

Example comprehension_of_inbound_headers :
  dict_comp not_host Example.inbound_headers =
    [("Connection", "keep-alive"); ("Content-Type", "application/json");
     ("X-Trace", "b")].
Proof. reflexivity. Qed.

Example loads_body_with_model :
  Example.loads (List.concat Example.body_with_model) =
    Ok (JObject [("model", JString "llama3"); ("prompt", JString "hi")]).
Proof. reflexivity. Qed.

Example loads_repeated_key :
  Example.loads
    (encode ("{" ++ Example.q "model" ++ ":1," ++ Example.q "model" ++ ": []}")) =
    Ok (JObject [("model", JArray [])]).
Proof. reflexivity. Qed.

Example mcp_with_model_is_forwarded :
  app_handle Example.loads Example.decoder Example.up_ok Example.app Example.mcp_with_model Example.st0 =
    (Ok {| resp_status := 200;
           resp_headers := up_headers Example.reply_ok;
           resp_body := List.concat (up_chunks Example.reply_ok) |},
     {| calls := [{| call_method := "POST";
                    call_url := "http://localhost:11434/generate";
                    call_headers := [("Connection", "keep-alive");
                                    ("Content-Type", "application/json");
                                    ("X-Trace", "b")];
                    call_data := List.concat Example.body_with_model |}];
        logged := [] |}).
Proof. reflexivity. Qed.

Example mcp_with_a_list_is_500 :
  app_handle Example.loads Example.decoder Example.up_ok Example.app
    (Example.post "/mcp" [] [encode "[]"]) Example.st0 =
    (Ok (web_Response_text 500 "Internal Server Error"),
     {| calls := [];
        logged := ["Error handling MCP request: 'list' object has no attribute 'get'"] |}).
Proof. reflexivity. Qed.

Example forwarding_before_startup :
  forward_request Example.decoder Example.up_ok (MCPProxy_init "http://localhost:11434/" "")
    Example.chat_with_model "chat" Example.st0 =
    (Ok (web_Response_text 500 "Internal Server Error"),
     {| calls := [];
        logged := ["Error forwarding request to chat: 'NoneType' object has no attribute 'post'"] |}).
Proof. reflexivity. Qed.

Example forwarding_after_cleanup :
  fst (forward_request Example.decoder Example.up_ok (app_proxy (cleanup_app Example.app))
         Example.chat_with_model "chat" Example.st0) =
    Ok (web_Response_text 500 "Internal Server Error").
Proof. reflexivity. Qed.

Example unknown_path_is_404 :
  fst (app_handle Example.loads Example.decoder Example.up_ok Example.app
         (Example.post "/generate" [] []) Example.st0) =
    Ok (web_Response_text 404 "404: Not Found").
Proof. reflexivity. Qed.

Example get_on_a_post_route_is_405 :
  resolve routes "GET" "/chat" =
    inr {| resp_status := 405;
           resp_headers := [("Content-Type", "text/plain; charset=utf-8");
                            ("Allow", "POST")];
           resp_body := encode "405: Method Not Allowed" |}.
Proof. reflexivity. Qed.

Example post_on_health_is_405 :
  resolve routes "POST" "/health" =
    inr {| resp_status := 405;
           resp_headers := [("Content-Type", "text/plain; charset=utf-8");
                            ("Allow", "GET,HEAD")];
           resp_body := encode "405: Method Not Allowed" |}.
Proof. reflexivity. Qed.

Example loads_leading_zero :
  Example.loads (encode "01") = Raise (Exc JSONDecodeError "Expecting value")
  /\ Example.loads (encode "-0") = Ok (JInt 0)
  /\ Example.loads (encode "10") = Ok (JInt 10).
Proof. repeat split. Qed.

Example gunzip_of_the_gzip_body :
  Example.gunzip Example.gzip_body = Ok (List.concat (up_chunks Example.reply_ok))
  /\ read_payload Example.decoder Example.reply_gzip
     = Ok (List.concat (up_chunks Example.reply_ok))
  /\ read_payload Example.decoder Example.reply_ok
     = Ok (List.concat (up_chunks Example.reply_ok)).
Proof. repeat split; vm_compute; reflexivity. Qed.

Example gunzip_checks_the_trailer :
  Example.gunzip (removelast Example.gzip_body ++ [x01])%list
  = Raise Example.undecodable.
Proof. vm_compute. reflexivity. Qed.

Example head_health_is_routed : resolve routes "HEAD" "/health" = inl Hhealth.
Proof. reflexivity. Qed.

(** ** The exception discipline *)

Lemma try_except_Ok {A} (body : M A) handler st a st' :
  body st = (Ok a, st') -> try_except body handler st = (Ok a, st').
Proof. intros H. unfold try_except. now rewrite H. Qed.

Lemma try_except_caught {A} (body : M A) handler st e st' :
  body st = (Raise e, st') -> is_Exception e = true ->
  try_except body handler st = handler e st'.
Proof. intros H He. unfold try_except. now rewrite H, He. Qed.

Lemma try_except_passes {A} (body : M A) handler st e st' :
  body st = (Raise e, st') -> is_Exception e = false ->
  try_except body handler st = (Raise e, st').
Proof. intros H He. unfold try_except. now rewrite H, He. Qed.

(** A handler clause that logs and returns a reply cannot raise. *)
Lemma try_except_reply {A} (body : M A) (msg : PyExc -> string) (reply : A) :
  no_Exception_escapes
    (try_except body (fun e => logger_error (msg e) ;;; ret reply)).
Proof.
  intros st. unfold try_except.
  destruct (body st) as [[a | e] st']; simpl; trivial.
  destruct (is_Exception e) eqn:He; simpl; trivial.
Qed.

(** Around a body that does what [inner] does and lets no [Exception] out,
    [try] changes nothing. *)
Lemma try_except_idle_at {A} (body inner : M A) handler st :
  body st = inner st -> no_Exception_escapes inner ->
  try_except body handler st = inner st.
Proof.
  intros Hb H. specialize (H st). unfold try_except. rewrite Hb.
  destruct (inner st) as [[a | e] st']; simpl in *; trivial.
  now rewrite H.
Qed.

Lemma bind_Ok {A B} (m : M A) (k : A -> M B) st a st' :
  m st = (Ok a, st') -> bind m k st = k a st'.
Proof. intros H. unfold bind. now rewrite H. Qed.

Lemma bind_Raise {A B} (m : M A) (k : A -> M B) st e st' :
  m st = (Raise e, st') -> bind m k st = (Raise e, st').
Proof. intros H. unfold bind. now rewrite H. Qed.

Section HandlerFacts.

Variable loads : list byte -> result json.
Variable decoder : Decoder.
Variable upstream : Upstream.

Lemma session_request_open self r st :
  session_open self ->
  session_request upstream self r st =
    (match upstream (List.length (calls st)) r with
     | Responded c => Ok c
     | ConnectFailed e => Raise e
     end, record_call st r).
Proof.
  intros Hs. unfold session_request. rewrite Hs. simpl.
  now destruct (upstream _ r).
Qed.

Lemma forward_request_contained self request endpoint :
  no_Exception_escapes (forward_request decoder upstream self request endpoint).
Proof. apply try_except_reply. Qed.

Lemma handle_mcp_request_contained self request :
  no_Exception_escapes (handle_mcp_request loads decoder upstream self request).
Proof. apply try_except_reply. Qed.

Lemma handle_health_check_contained self request :
  no_Exception_escapes (handle_health_check upstream self request).
Proof. apply try_except_reply. Qed.

(** The upstream answered and its payload could be read. *)
Lemma forward_request_relayed self request endpoint st c body :
  session_open self ->
  req_read_error request = None ->
  upstream (List.length (calls st)) (outbound self request endpoint) = Responded c ->
  read_payload decoder c = Ok body ->
  forward_request decoder upstream self request endpoint st =
    (Ok (web_Response_body body (up_status c)
           (dict_comp (fun _ => true) (up_headers c))),
     record_call st (outbound self request endpoint)).
Proof.
  intros Hs Hr Hu Hc.
  unfold forward_request. apply try_except_Ok.
  unfold request_read. rewrite Hr.
  unfold bind at 1. unfold ret at 1.
  unfold session_post.
  erewrite bind_Ok.
  2:{ rewrite session_request_open by assumption.
      fold (outbound self request endpoint). rewrite Hu. reflexivity. }
  unfold response_read, bind. rewrite Hc. reflexivity.
Qed.

(** The payload as it came, when no decoder is installed. *)
Lemma read_payload_plain c :
  up_read_error c = None ->
  decoder (up_headers c) = None ->
  read_payload decoder c = Ok (List.concat (up_chunks c)).
Proof. intros He Hd. unfold read_payload. now rewrite He, Hd. Qed.

(** The connection attempt raised. *)
Lemma forward_request_connect_failed self request endpoint st e :
  session_open self ->
  req_read_error request = None ->
  upstream (List.length (calls st)) (outbound self request endpoint) = ConnectFailed e ->
  is_Exception e = true ->
  forward_request decoder upstream self request endpoint st =
    (Ok (web_Response_text 500 "Internal Server Error"),
     record_logged (record_call st (outbound self request endpoint))
       ("Error forwarding request to " ++ endpoint ++ ": " ++ exc_str e)).
Proof.
  intros Hs Hr Hu He.
  unfold forward_request.
  erewrite try_except_caught; [reflexivity | | exact He].
  unfold request_read. rewrite Hr.
  unfold bind at 1. unfold ret at 1.
  unfold session_post.
  erewrite bind_Raise; [reflexivity |].
  rewrite session_request_open by assumption.
  fold (outbound self request endpoint). now rewrite Hu.
Qed.

End HandlerFacts.

(** ** Dictionaries built by comprehension *)

Section DictFacts.

Variable V : Type.
Implicit Types (d : dict V) (k : string) (v : V).

Lemma dict_get_set_same d k v : dict_get (dict_set d k v) k = Some v.
Proof.
  induction d as [| [k' v'] d IH]; simpl.
  - now rewrite String.eqb_refl.
  - destruct (String.eqb k' k) eqn:E; simpl; rewrite E; auto.
Qed.

Lemma dict_get_set_other d k v k' :
  k <> k' -> dict_get (dict_set d k v) k' = dict_get d k'.
Proof.
  intros Hne. induction d as [| [k0 v0] d IH]; simpl.
  - apply String.eqb_neq in Hne. now rewrite Hne.
  - destruct (String.eqb k0 k) eqn:E; simpl.
    + apply String.eqb_eq in E. subst k0.
      apply String.eqb_neq in Hne. now rewrite Hne.
    + now rewrite IH.
Qed.

Lemma dict_get_app (d1 d2 : dict V) k :
  dict_get (d1 ++ d2)%list k =
    match dict_get d1 k with
    | Some v => Some v
    | None => dict_get d2 k
    end.
Proof.
  induction d1 as [| [k' v'] d1 IH]; simpl; trivial.
  destruct (String.eqb k' k); auto.
Qed.

Lemma fold_comp_get keep (items : list (string * V)) (acc : dict V) k :
  dict_get (fold_left (comp_step keep) items acc) k =
    match (if keep k then dict_get (rev items) k else None) with
    | Some v => Some v
    | None => dict_get acc k
    end.
Proof.
  revert acc. induction items as [| [k0 v0] items IH]; intros acc; simpl.
  - now destruct (keep k).
  - rewrite IH. rewrite dict_get_app. simpl.
    destruct (keep k) eqn:Hk.
    + destruct (dict_get (rev items) k); trivial.
      unfold comp_step; simpl.
      destruct (String.eqb k0 k) eqn:E.
      * apply String.eqb_eq in E. subst k0. rewrite Hk.
        apply dict_get_set_same.
      * apply String.eqb_neq in E.
        destruct (keep k0); trivial. now apply dict_get_set_other.
    + unfold comp_step; simpl.
      destruct (keep k0) eqn:Hk0; trivial.
      apply dict_get_set_other. intros ->. congruence.
Qed.

(** A comprehension keeps, for every admitted key, the value of its last
    occurrence, and nothing else. *)
Lemma dict_comp_get keep (items : list (string * V)) k :
  dict_get (dict_comp keep items) k =
    if keep k then dict_get (rev items) k else None.
Proof.
  unfold dict_comp. rewrite fold_comp_get. simpl.
  destruct (keep k); trivial. now destruct (dict_get (rev items) k).
Qed.

End DictFacts.

Section CompFacts.

Variable V : Type.
Implicit Types (d acc : dict V) (k : string) (v : V) (items : list (string * V)).

Lemma dict_set_present d k v :
  In k (keys d) -> keys (dict_set d k v) = keys d.
Proof.
  induction d as [| [k' v'] d IH]; simpl; [tauto |].
  intros [-> | H].
  - now rewrite String.eqb_refl.
  - destruct (String.eqb k' k); simpl; trivial. now rewrite IH.
Qed.

Lemma dict_set_absent d k v :
  ~ In k (keys d) -> dict_set d k v = (d ++ [(k, v)])%list.
Proof.
  induction d as [| [k' v'] d IH]; simpl; trivial.
  intros H. destruct (String.eqb k' k) eqn:E.
  - apply String.eqb_eq in E. tauto.
  - rewrite IH; tauto.
Qed.

Lemma dict_set_entries d k v k0 v0 :
  In (k, v) (dict_set d k0 v0) -> (k, v) = (k0, v0) \/ In (k, v) d.
Proof.
  induction d as [| [k' v'] d IH]; simpl.
  - intros [H | []]. left. now symmetry.
  - destruct (String.eqb k' k0) eqn:E; simpl.
    + apply String.eqb_eq in E. subst k'.
      intros [H | H]; [left; now symmetry | right; now right].
    + intros [H | H]; [right; now left |].
      destruct (IH H); [now left | right; now right].
Qed.

Lemma fold_comp_entries keep items acc k v :
  In (k, v) (fold_left (comp_step keep) items acc) ->
  In (k, v) acc \/ (In (k, v) items /\ keep k = true).
Proof.
  revert acc. induction items as [| [k0 v0] items IH]; intros acc; simpl; [tauto |].
  intros H. destruct (IH _ H) as [Hacc | [Hin Hk]]; [| right; tauto].
  unfold comp_step in Hacc. simpl in Hacc.
  destruct (keep k0) eqn:Hk0; [| now left].
  destruct (dict_set_entries _ _ _ _ _ Hacc) as [Heq | Hd]; [| now left].
  inversion Heq; subst. right. split; [now left | exact Hk0].
Qed.

Lemma fold_comp_distinct_names keep items acc :
  NoDup (map fst items) ->
  (forall k, In k (map fst items) -> ~ In k (keys acc)) ->
  fold_left (comp_step keep) items acc =
    (acc ++ filter (fun kv => keep (fst kv)) items)%list.
Proof.
  revert acc. induction items as [| [k v] items IH]; intros acc Hnd Hacc; simpl.
  - now rewrite List.app_nil_r.
  - inversion Hnd as [| ? ? Hk Hnd']; subst.
    unfold comp_step at 2. simpl.
    destruct (keep k) eqn:Hkeep.
    + rewrite dict_set_absent by (apply Hacc; now left).
      rewrite IH; trivial.
      * now rewrite <- List.app_assoc.
      * intros k' Hk'. unfold keys. rewrite List.map_app, List.in_app_iff. simpl.
        intros [H | [<- | []]]; [| contradiction].
        apply (Hacc k'); [now right | exact H].
    + apply IH; trivial. intros k' Hk'. apply Hacc. now right.
Qed.

End CompFacts.

Lemma filter_all {A} (l : list A) : filter (fun _ => true) l = l.
Proof. induction l; simpl; congruence. Qed.

Lemma length_concat_sum {A} (chunks : list (list A)) :
  List.length (List.concat chunks) = list_sum (map (@List.length A) chunks).
Proof.
  induction chunks as [| c chunks IH]; simpl; trivial.
  now rewrite List.length_app, IH.
Qed.

(** ** Routing *)

Lemma resolve_post_mcp : resolve routes "POST" "/mcp" = inl Hmcp.
Proof. reflexivity. Qed.

Lemma resolve_post_chat : resolve routes "POST" "/chat" = inl Hchat.
Proof. reflexivity. Qed.

Lemma resolve_post_completion : resolve routes "POST" "/completion" = inl Hcompletion.
Proof. reflexivity. Qed.

Lemma resolve_get_health : resolve routes "GET" "/health" = inl Hhealth.
Proof. reflexivity. Qed.

Lemma app_handle_routed loads decoder upstream app request method path h :
  app_routes app = routes ->
  req_method request = method ->
  req_path request = path ->
  resolve routes method path = inl h ->
  app_handle loads decoder upstream app request =
    run_handler loads decoder upstream h (app_proxy app) request.
Proof.
  intros Hr Hm Hp Hres. unfold app_handle. now rewrite Hr, Hm, Hp, Hres.
Qed.

(** ** Validation in the /mcp handler *)

Section McpFacts.

Variable loads : list byte -> result json.
Variable decoder : Decoder.
Variable upstream : Upstream.

Lemma handle_mcp_request_valid self request st :
  req_read_error request = None ->
  has_model loads request ->
  handle_mcp_request loads decoder upstream self request st =
    forward_request decoder upstream self request "generate" st.
Proof.
  intros Hr (d & v & Hl & Hd & Hv).
  unfold handle_mcp_request.
  apply try_except_idle_at; [| apply forward_request_contained].
  unfold request_json, request_read. rewrite Hr.
  unfold bind at 2. unfold ret at 1. rewrite Hl.
  unfold bind at 1. unfold ret at 1.
  simpl py_get. rewrite Hd.
  unfold bind at 1. unfold ret at 1. now rewrite Hv.
Qed.

Lemma handle_mcp_request_rejected self request st d :
  req_read_error request = None ->
  loads (List.concat (req_chunks request)) = Ok (JObject d) ->
  lacks_model d ->
  handle_mcp_request loads decoder upstream self request st =
    (Ok (web_Response_text 400 "Model name required"), st).
Proof.
  intros Hr Hl Hd.
  unfold handle_mcp_request. apply try_except_Ok.
  unfold request_json, request_read. rewrite Hr.
  unfold bind at 2. unfold ret at 1. rewrite Hl.
  unfold bind at 1. unfold ret at 1.
  simpl py_get. unfold lacks_model in Hd.
  destruct (dict_get d "model") as [v |].
  - unfold bind at 1. unfold ret at 1. now rewrite Hd.
  - reflexivity.
Qed.

Lemma handle_mcp_request_undecodable self request st e :
  req_read_error request = None ->
  loads (List.concat (req_chunks request)) = Raise e ->
  is_Exception e = true ->
  handle_mcp_request loads decoder upstream self request st =
    (Ok (web_Response_text 500 "Internal Server Error"),
     record_logged st ("Error handling MCP request: " ++ exc_str e)).
Proof.
  intros Hr Hl He.
  unfold handle_mcp_request.
  erewrite try_except_caught; [reflexivity | | exact He].
  unfold request_json, request_read. rewrite Hr.
  unfold bind at 2. unfold ret at 1. rewrite Hl. reflexivity.
Qed.

End McpFacts.

(** ** Validation (claims C1 and C10) *)




(** C10: on POST /mcp, a body that [json.loads] rejects is answered with
    status 500 and the text "Internal Server Error", and nothing is sent to
    the upstream. *)
Theorem mcp_invalid_json_is_500
    (loads : list byte -> result json) (decoder : Decoder) (upstream : Upstream)
    (app : Application) (request : Request) (st : State) (e : PyExc) :
  app_routes app = routes ->
  req_method request = "POST" ->
  req_path request = "/mcp" ->
  req_read_error request = None ->
  loads (List.concat (req_chunks request)) = Raise e ->
  exc_class e = JSONDecodeError ->
  exists resp st',
    app_handle loads decoder upstream app request st = (Ok resp, st')
    /\ resp_status resp = 500%Z
    /\ resp_body resp = encode "Internal Server Error"
    /\ calls st' = calls st.
Proof.
  intros Hroutes Hm Hp Hr Hl He.
  rewrite (app_handle_routed loads decoder upstream app request _ _ _ Hroutes Hm Hp resolve_post_mcp).
  simpl run_handler.
  rewrite (handle_mcp_request_undecodable loads decoder upstream (app_proxy app) request st e Hr Hl).
  - eexists. eexists. repeat split.
  - unfold is_Exception. now rewrite He.
Qed.

Lemma mcp_invalid_json_is_500_witness :
  Example.loads (List.concat (req_chunks Example.mcp_not_json))
    = Raise (Exc JSONDecodeError "Expecting value")
  /\ exists resp st',
       app_handle Example.loads Example.decoder Example.up_ok Example.app
         Example.mcp_not_json Example.st0 = (Ok resp, st')
       /\ resp_status resp = 500%Z
       /\ resp_body resp = encode "Internal Server Error"
       /\ calls st' = calls Example.st0.
Proof.
  split; [reflexivity |].
  apply (mcp_invalid_json_is_500 Example.loads Example.decoder Example.up_ok Example.app
           Example.mcp_not_json Example.st0
           (Exc JSONDecodeError "Expecting value"));
    reflexivity.
Defined.

(** ** Relaying (claims C2 and C3) *)




(** C3, as stated, fails: against an upstream that refuses the first
    connection and would accept the second, no second request is sent. *)
Lemma flaky_upstream_not_retried :
  ~ retried_once Example.decoder Example.up_flaky Example.proxy Example.chat_with_model "chat"
      Example.st0.
Proof.
  intros H. specialize (H Example.refused eq_refl eq_refl).
  vm_compute in H. discriminate H.
Qed.

(** C3, amended: when the connection attempt of a forwarding fails, the
    proxy does not retry: the one request is all that was sent, and the
    caller receives status 500 with the text "Internal Server Error". *)
Theorem connect_failure_not_retried
    (decoder : Decoder) (upstream : Upstream) (self : MCPProxy) (request : Request)
    (endpoint : string) (st : State) (e : PyExc) :
  session_open self ->
  req_read_error request = None ->
  upstream (List.length (calls st)) (outbound self request endpoint) = ConnectFailed e ->
  is_Exception e = true ->
  exists st',
    forward_request decoder upstream self request endpoint st =
      (Ok (web_Response_text 500 "Internal Server Error"), st')
    /\ calls st' = (calls st ++ [outbound self request endpoint])%list.
Proof.
  intros Hs Hr Hu He.
  rewrite (forward_request_connect_failed decoder upstream self request endpoint st e Hs Hr Hu He).
  eexists. split; reflexivity.
Qed.

Lemma connect_failure_not_retried_witness :
  Example.up_flaky 0 (outbound Example.proxy Example.chat_with_model "chat")
    = ConnectFailed Example.refused
  /\ exists st',
       forward_request Example.decoder Example.up_flaky Example.proxy Example.chat_with_model "chat"
         Example.st0 =
         (Ok (web_Response_text 500 "Internal Server Error"), st')
       /\ calls st' = [outbound Example.proxy Example.chat_with_model "chat"].
Proof.
  split; [reflexivity |].
  apply (connect_failure_not_retried Example.decoder Example.up_flaky Example.proxy
           Example.chat_with_model "chat" Example.st0 Example.refused);
    reflexivity.
Defined.

(** ** Failures (claim C4) *)

(** Every way [forward_request] can end: the fixed 500 reply, the upstream's
    answer relayed, or an exception that is no [Exception]. *)
Lemma forward_request_cases decoder upstream self request endpoint st :
  match fst (forward_request decoder upstream self request endpoint st) with
  | Ok resp =>
      resp = web_Response_text 500 "Internal Server Error"
      \/ exists c body,
           upstream (List.length (calls st)) (outbound self request endpoint) = Responded c
           /\ read_payload decoder c = Ok body
           /\ resp = web_Response_body body (up_status c)
                       (dict_comp (fun _ => true) (up_headers c))
  | Raise e => is_Exception e = false
  end.
Proof.
  unfold forward_request, try_except, request_read, bind, ret, raise,
    session_post, session_request, response_read, logger_error.
  unfold bind, ret, raise.
  destruct (req_read_error request) as [e |]; cbn [fst closed].
  - destruct (is_Exception e) eqn:He; cbn [fst]; auto.
  - destruct (session self) as [[[|]] |]; cbn [fst closed is_Exception exc_class]; auto.
    fold (outbound self request endpoint).
    destruct (upstream (List.length (calls st)) (outbound self request endpoint))
      as [c | e].
    + destruct (read_payload decoder c) as [body | e] eqn:Hc; cbn [fst].
      * right. exists c, body. auto.
      * destruct (is_Exception e) eqn:He; cbn [fst]; auto.
    + destruct (is_Exception e) eqn:He; cbn [fst]; auto.
Qed.

(** With an open session and a readable body the call is made, whatever
    comes of it. *)
Lemma forward_request_open_calls decoder upstream self request endpoint st :
  session_open self ->
  req_read_error request = None ->
  calls (snd (forward_request decoder upstream self request endpoint st))
  = (calls st ++ [outbound self request endpoint])%list.
Proof.
  intros Hs Hr. unfold session_open in Hs.
  unfold forward_request, try_except, request_read, bind, ret, raise,
    session_post, session_request, response_read, logger_error.
  unfold bind, ret, raise.
  rewrite Hr, Hs. cbn [snd calls closed].
  fold (outbound self request endpoint).
  destruct (upstream (List.length (calls st)) (outbound self request endpoint))
    as [c | e]; cbn [snd calls].
  - destruct (read_payload decoder c) as [body | e]; cbn [snd calls]; trivial.
    now destruct (is_Exception e).
  - now destruct (is_Exception e).
Qed.

Lemma run_handler_contained loads decoder upstream h self request :
  no_Exception_escapes (run_handler loads decoder upstream h self request).
Proof.
  destruct h; simpl.
  - apply handle_mcp_request_contained.
  - apply forward_request_contained.
  - apply forward_request_contained.
  - apply handle_health_check_contained.
Qed.

(** C4, as stated, fails: a refused connection and a timed-out one are
    answered with the same bytes, so no reading of the body tells the two
    causes apart. *)
Lemma refused_and_timeout_alike :
  ~ exists classify,
      reply_names_cause classify Example.loads Example.decoder Example.up_refused Example.app
        Example.chat_with_model Example.st0 Connect
      /\ reply_names_cause classify Example.loads Example.decoder Example.up_timeout Example.app
           Example.chat_with_model Example.st0 Timeout.
Proof.
  intros (classify & (r1 & s1 & H1 & C1) & (r2 & s2 & H2 & C2)).
  vm_compute in H1, H2.
  inversion H1; subst r1 s1. inversion H2; subst r2 s2.
  simpl in C1, C2. rewrite C1 in C2. discriminate C2.
Qed.

(** C4, amended: no [Exception] leaves the handler of any route, and a
    forwarding that does not relay the upstream's answer returns one fixed
    reply whatever went wrong: status 500 with the text "Internal Server
    Error". *)
Theorem failures_share_one_reply
    (loads : list byte -> result json) (decoder : Decoder) (upstream : Upstream)
    (app : Application) (request : Request) (st : State) :
  match fst (app_handle loads decoder upstream app request st) with
  | Ok _ => True
  | Raise e => is_Exception e = false
  end
  /\ forall self endpoint,
       match fst (forward_request decoder upstream self request endpoint st) with
       | Ok resp =>
           resp = web_Response_text 500 "Internal Server Error"
           \/ exists c,
                upstream (List.length (calls st)) (outbound self request endpoint)
                = Responded c
                /\ resp_status resp = up_status c
                /\ read_payload decoder c = Ok (resp_body resp)
       | Raise e => is_Exception e = false
       end.
Proof.
  split.
  - unfold app_handle.
    destruct (resolve (app_routes app) (req_method request) (req_path request))
      as [h | reply].
    + apply run_handler_contained.
    + exact I.
  - intros self endpoint.
    pose proof (forward_request_cases decoder upstream self request endpoint st) as H.
    destruct (fst (forward_request decoder upstream self request endpoint st))
      as [resp | e]; trivial.
    destruct H as [H | (c & body & Hu & Hc & H)]; [now left |].
    right. exists c. subst resp. auto.
Qed.

(** ** Health (claims C5 and C6) *)

Lemma handle_health_check_open upstream self request st :
  session_open self ->
  handle_health_check upstream self request st =
    match upstream (List.length (calls st)) (probe self) with
    | Responded c =>
        (Ok (if Z.eqb (up_status c) 200 then web_Response_text 200 "OK"
             else web_Response_text 503 "Service Unavailable"),
         record_call st (probe self))
    | ConnectFailed e =>
        if is_Exception e then
          (Ok (web_Response_text 503 "Service Unavailable"),
           record_logged (record_call st (probe self))
             ("Health check failed: " ++ exc_str e))
        else (Raise e, record_call st (probe self))
    end.
Proof.
  intros Hs.
  unfold handle_health_check, try_except, session_get, bind.
  rewrite (session_request_open upstream self _ st Hs).
  fold (probe self).
  destruct (upstream (List.length (calls st)) (probe self)) as [c | e].
  - now destruct (Z.eqb (up_status c) 200).
  - now destruct (is_Exception e).
Qed.

Lemma handle_health_check_closed upstream self request st :
  ~ session_open self ->
  handle_health_check upstream self request st =
    (Ok (web_Response_text 503 "Service Unavailable"),
     record_logged st
       ("Health check failed: "
        ++ match session self with
           | Some _ => "Session is closed"
           | None => "'NoneType' object has no attribute 'get'"
           end)).
Proof.
  intros Hs. unfold session_open in Hs.
  unfold handle_health_check, try_except, session_get, session_request,
    bind, ret, raise, logger_error.
  unfold bind, ret, raise.
  destruct (session self) as [[[|]] |];
    cbn [closed is_Exception exc_class]; try reflexivity.
  now contradiction Hs.
Qed.

(** C5, as stated, fails: an upstream that answers 200 after 2.5 s is
    Degraded under a threshold of one second, and GET /health still
    replies 200. *)
Lemma slow_upstream_reported_ok :
  observed_status 1000 (Example.up_slow 0 (probe Example.proxy)) = Degraded
  /\ ~ health_reply_follows_status 1000 Example.loads Example.decoder Example.up_slow Example.app
         Example.get_health Example.st0.
Proof.
  split; [reflexivity |].
  intros (resp & st' & H & Hs).
  vm_compute in H. inversion H; subst resp st'.
  vm_compute in Hs. discriminate Hs.
Qed.

(** C5, amended: GET /health replies 200 with the text "OK" exactly when
    its probe of the upstream is answered with status 200, however long the
    answer took; it replies 503 when the probe is answered with another
    status or raises; it replies with no other status. *)
Theorem health_reply_follows_probe
    (loads : list byte -> result json) (decoder : Decoder) (upstream : Upstream)
    (app : Application) (request : Request) (st : State) :
  app_routes app = routes ->
  req_method request = "GET" ->
  req_path request = "/health" ->
  session_open (app_proxy app) ->
  (forall c,
      upstream (List.length (calls st)) (probe (app_proxy app)) = Responded c ->
      fst (app_handle loads decoder upstream app request st) =
        Ok (if Z.eqb (up_status c) 200 then web_Response_text 200 "OK"
            else web_Response_text 503 "Service Unavailable"))
  /\ (forall e,
         upstream (List.length (calls st)) (probe (app_proxy app)) = ConnectFailed e ->
         is_Exception e = true ->
         fst (app_handle loads decoder upstream app request st) =
           Ok (web_Response_text 503 "Service Unavailable"))
  /\ (forall resp,
         fst (app_handle loads decoder upstream app request st) = Ok resp ->
         resp_status resp = 200%Z \/ resp_status resp = 503%Z).
Proof.
  intros Hroutes Hm Hp Hs.
  rewrite (app_handle_routed loads decoder upstream app request _ _ _ Hroutes Hm Hp
             resolve_get_health).
  simpl run_handler.
  rewrite (handle_health_check_open upstream (app_proxy app) request st Hs).
  repeat split.
  - intros c Hc. now rewrite Hc.
  - intros e He Hex. now rewrite He, Hex.
  - intros resp.
    destruct (upstream (List.length (calls st)) (probe (app_proxy app))) as [c | e].
    + simpl. intros H. inversion H.
      destruct (Z.eqb (up_status c) 200); simpl; auto.
    + destruct (is_Exception e); simpl; intros H; inversion H. simpl. auto.
Qed.

Lemma health_reply_follows_probe_witness :
  fst (app_handle Example.loads Example.decoder Example.up_slow Example.app Example.get_health
         Example.st0) = Ok (web_Response_text 200 "OK")
  /\ fst (app_handle Example.loads Example.decoder Example.up_refused Example.app Example.get_health
            Example.st0) = Ok (web_Response_text 503 "Service Unavailable").
Proof.
  split.
  - apply (proj1 (health_reply_follows_probe Example.loads Example.decoder Example.up_slow
                    Example.app Example.get_health Example.st0
                    eq_refl eq_refl eq_refl eq_refl)
             Example.reply_slow).
    reflexivity.
  - apply (proj1 (proj2 (health_reply_follows_probe Example.loads Example.decoder Example.up_refused
                           Example.app Example.get_health Example.st0
                           eq_refl eq_refl eq_refl eq_refl))
             Example.refused); reflexivity.
Defined.

(** C6, as stated, fails: a GET /health sends a request to the upstream
    before it answers. *)
Lemma health_check_probes_live :
  ~ answered_without_probe Example.loads Example.decoder Example.up_ok Example.app
      Example.get_health Example.st0.
Proof.
  unfold answered_without_probe. vm_compute. discriminate.
Qed.

(** C6, amended: a GET /health is answered from a live call, not from a
    stored result.  While the session is open it makes exactly one call, a
    GET of the upstream's /health, and its reply is decided by the outcome
    of that call alone, whatever was called or answered before; while the
    session is not open it makes no call and replies 503. *)
Theorem health_check_sends_one_probe
    (loads : list byte -> result json) (decoder : Decoder) (upstream : Upstream)
    (app : Application) (request : Request) (st : State) :
  app_routes app = routes ->
  req_method request = "GET" ->
  req_path request = "/health" ->
  (session_open (app_proxy app) ->
   calls (snd (app_handle loads decoder upstream app request st))
   = (calls st ++ [probe (app_proxy app)])%list
   /\ forall upstream' st',
        upstream' (List.length (calls st')) (probe (app_proxy app))
        = upstream (List.length (calls st)) (probe (app_proxy app)) ->
        fst (app_handle loads decoder upstream' app request st')
        = fst (app_handle loads decoder upstream app request st))
  /\ (~ session_open (app_proxy app) ->
      calls (snd (app_handle loads decoder upstream app request st)) = calls st
      /\ fst (app_handle loads decoder upstream app request st)
         = Ok (web_Response_text 503 "Service Unavailable")).
Proof.
  intros Hroutes Hm Hp.
  rewrite (app_handle_routed loads decoder upstream app request _ _ _ Hroutes Hm Hp
             resolve_get_health).
  simpl run_handler. split.
  - intros Hs.
    rewrite (handle_health_check_open upstream (app_proxy app) request st Hs).
    split.
    + destruct (upstream (List.length (calls st)) (probe (app_proxy app))) as [c | e];
        [reflexivity | now destruct (is_Exception e)].
    + intros upstream' st' Hsame.
      rewrite (app_handle_routed loads decoder upstream' app request _ _ _ Hroutes Hm Hp
                 resolve_get_health).
      simpl run_handler.
      rewrite (handle_health_check_open upstream' (app_proxy app) request st' Hs).
      rewrite Hsame.
      destruct (upstream (List.length (calls st)) (probe (app_proxy app))) as [c | e];
        [reflexivity | now destruct (is_Exception e)].
  - intros Hs.
    rewrite (handle_health_check_closed upstream (app_proxy app) request st Hs).
    split; reflexivity.
Qed.

Lemma health_check_sends_one_probe_witness :
  calls (snd (app_handle Example.loads Example.decoder Example.up_ok Example.app
                Example.get_health Example.st0))
  = [probe Example.proxy]
  /\ fst (app_handle Example.loads Example.decoder Example.up_ok
            (cleanup_app Example.app) Example.get_health Example.st0)
     = Ok (web_Response_text 503 "Service Unavailable").
Proof.
  split.
  - apply (proj1 (health_check_sends_one_probe Example.loads Example.decoder
                    Example.up_ok Example.app Example.get_health Example.st0
                    eq_refl eq_refl eq_refl)).
    reflexivity.
  - apply (proj2 (health_check_sends_one_probe Example.loads Example.decoder
                    Example.up_ok (cleanup_app Example.app) Example.get_health
                    Example.st0 eq_refl eq_refl eq_refl)).
    intros H. discriminate H.
Defined.

(** ** Buffering (claim C7) *)

Lemma length_concat_repeat_one {A} (x : A) (n : nat) :
  List.length (List.concat (repeat [x] n)) = n.
Proof. induction n; simpl; auto. Qed.

(** C7, as stated, fails: whatever the bound, an upstream that sends one
    byte more, a byte at a time, has its whole payload put in one reply
    body. *)
Lemma relay_buffers_whole_body : ~ exists B, bounded_buffers B.
Proof.
  intros (B & H).
  destruct (H Example.decoder (Example.up_long (S B)) Example.proxy
              Example.chat_with_model "chat" Example.st0 _ _
              (forward_request_relayed Example.decoder (Example.up_long (S B))
                 Example.proxy Example.chat_with_model "chat" Example.st0
                 (Example.reply_long (S B)) (List.concat (repeat [x61] (S B)))
                 eq_refl eq_refl eq_refl eq_refl)) as [Hlen _].
  cbn [resp_body web_Response_body] in Hlen.
  rewrite length_concat_repeat_one in Hlen. lia.
Qed.

(** C7, amended: a forwarding hands each body on in one piece: the data of
    its one call is the whole inbound payload, all its chunks joined, and
    the body of its reply is the whole payload of the answer, all its
    chunks joined (for an answer that the client does not decode). *)
Theorem relay_buffers_entire_bodies
    (decoder : Decoder) (upstream : Upstream) (self : MCPProxy) (request : Request)
    (endpoint : string) (st : State) (c : ClientResponse) :
  session_open self ->
  req_read_error request = None ->
  upstream (List.length (calls st)) (outbound self request endpoint) = Responded c ->
  up_read_error c = None ->
  decoder (up_headers c) = None ->
  exists r resp,
    forward_request decoder upstream self request endpoint st
    = (Ok resp, {| calls := (calls st ++ [r])%list; logged := logged st |})
    /\ call_data r = List.concat (req_chunks request)
    /\ resp_body resp = List.concat (up_chunks c).
Proof.
  intros Hs Hr Hu Hc Hd.
  exists (outbound self request endpoint).
  eexists. split.
  - apply (forward_request_relayed decoder upstream self request endpoint st c _
             Hs Hr Hu (read_payload_plain decoder c Hc Hd)).
  - split; reflexivity.
Qed.

Lemma relay_buffers_entire_bodies_witness :
  exists r resp,
    forward_request Example.decoder Example.up_ok Example.proxy
      Example.chat_with_model "chat" Example.st0
    = (Ok resp, {| calls := [r]; logged := [] |})
    /\ call_data r = List.concat Example.body_with_model
    /\ resp_body resp = List.concat (up_chunks Example.reply_ok).
Proof.
  apply (relay_buffers_entire_bodies Example.decoder Example.up_ok Example.proxy
           Example.chat_with_model "chat" Example.st0 Example.reply_ok);
    reflexivity.
Defined.

(** The inbound body is read to its end before anything is sent. *)
Lemma forward_request_reads_first decoder upstream self request endpoint st e :
  req_read_error request = Some e ->
  calls (snd (forward_request decoder upstream self request endpoint st)) = calls st.
Proof.
  intros Hr.
  unfold forward_request, try_except, request_read, bind. rewrite Hr.
  unfold raise. now destruct (is_Exception e).
Qed.

(** ** Header fields (claim C8) *)

(** C8, as stated, fails: an inbound [Connection: keep-alive] is passed on
    to the upstream. *)
Lemma connection_header_forwarded :
  ~ hop_headers_dropped Example.decoder Example.up_ok Example.proxy Example.chat_with_model "chat"
      Example.st0.
Proof.
  intros H.
  destruct (H (outbound Example.proxy Example.chat_with_model "chat")
              "Connection" "keep-alive") as [_ Hc].
  - vm_compute. auto.
  - vm_compute. auto.
  - apply Hc. reflexivity.
Qed.

(** C8, amended: the fields handed to the outbound call are the inbound
    ones, in their order, without those whose name, lowercased, is [host]
    (so [connection] is handed on); the fields of the reply are those of
    the upstream's answer, transport-specific ones included.  This for a
    message in which no field name occurs twice; what becomes of a
    repeated name is not part of the statement. *)
Theorem headers_copied_except_host
    (decoder : Decoder) (upstream : Upstream) (self : MCPProxy) (request : Request)
    (endpoint : string) (st : State) (c : ClientResponse) (body : list byte) :
  session_open self ->
  req_read_error request = None ->
  upstream (List.length (calls st)) (outbound self request endpoint) = Responded c ->
  read_payload decoder c = Ok body ->
  exists r resp,
    forward_request decoder upstream self request endpoint st
    = (Ok resp, {| calls := (calls st ++ [r])%list; logged := logged st |})
    /\ (NoDup (map fst (req_headers request)) ->
        call_headers r
        = filter (fun field => negb (String.eqb (lower (fst field)) "host"))
            (req_headers request))
    /\ (NoDup (map fst (up_headers c)) -> resp_headers resp = up_headers c).
Proof.
  intros Hs Hr Hu Hc.
  exists (outbound self request endpoint).
  eexists. split.
  - apply (forward_request_relayed decoder upstream self request endpoint st c body
             Hs Hr Hu Hc).
  - cbn [call_headers outbound resp_headers web_Response_body]. split; intros Hnd.
    + unfold dict_comp.
      rewrite (fold_comp_distinct_names _ not_host (req_headers request) [] Hnd);
        [reflexivity | intros k _ []].
    + unfold dict_comp.
      rewrite (fold_comp_distinct_names _ (fun _ => true) (up_headers c) [] Hnd);
        [apply filter_all | intros k _ []].
Qed.

Lemma headers_copied_except_host_witness :
  exists r resp,
    forward_request Example.decoder Example.up_ok Example.proxy Example.chat_plain
      "chat" Example.st0
    = (Ok resp, {| calls := [r]; logged := [] |})
    /\ call_headers r
       = [("Connection", "keep-alive"); ("Content-Type", "application/json");
          ("X-Trace", "a")]
    /\ resp_headers resp = up_headers Example.reply_ok.
Proof.
  destruct (headers_copied_except_host Example.decoder Example.up_ok Example.proxy
              Example.chat_plain "chat" Example.st0 Example.reply_ok
              (List.concat (up_chunks Example.reply_ok))
              eq_refl eq_refl eq_refl eq_refl) as (r & resp & Hf & Hq & Hp).
  exists r, resp. split; [exact Hf |]. split.
  - apply Hq. repeat constructor; simpl; intuition discriminate.
  - apply Hp. repeat constructor; simpl; intuition discriminate.
Defined.

(** ** The /mcp alias (claim C9) *)

(** C9: once a POST /mcp request has passed the model check, its handler
    forwards it to the upstream's "generate" endpoint, as the handler of
    POST /completion does: the two handlers end alike (reply, calls and
    log), and with an open session what they do is one POST of the whole
    body to [<upstream>/generate], the answer to which, when it comes and
    can be read, is the reply. *)
Theorem mcp_is_completion
    (loads : list byte -> result json) (decoder : Decoder) (upstream : Upstream)
    (self : MCPProxy) (request : Request) (st : State) :
  req_read_error request = None ->
  has_model loads request ->
  handle_mcp_request loads decoder upstream self request st =
    handle_completion_request decoder upstream self request st
  /\ (session_open self ->
      exists r,
        calls (snd (handle_mcp_request loads decoder upstream self request st))
        = (calls st ++ [r])%list
        /\ call_method r = "POST"
        /\ call_url r = ollama_url self ++ "/generate"
        /\ call_data r = List.concat (req_chunks request)
        /\ forall c body,
             upstream (List.length (calls st)) r = Responded c ->
             read_payload decoder c = Ok body ->
             exists resp,
               fst (handle_mcp_request loads decoder upstream self request st) = Ok resp
               /\ resp_status resp = up_status c
               /\ resp_body resp = body
               /\ resp_headers resp = dict_comp (fun _ => true) (up_headers c)).
Proof.
  intros Hr Hm.
  rewrite (handle_mcp_request_valid loads decoder upstream self request st Hr Hm).
  split; [reflexivity |].
  intros Hs. exists (outbound self request "generate").
  split; [apply forward_request_open_calls; assumption |].
  repeat split.
  intros c body Hu Hc.
  rewrite (forward_request_relayed decoder upstream self request "generate" st c body
             Hs Hr Hu Hc).
  eexists. repeat split.
Qed.

Lemma mcp_is_completion_witness :
  handle_mcp_request Example.loads Example.decoder Example.up_ok Example.proxy
    Example.mcp_with_model Example.st0 =
  handle_completion_request Example.decoder Example.up_ok Example.proxy
    Example.mcp_with_model Example.st0
  /\ exists r,
       calls (snd (handle_mcp_request Example.loads Example.decoder Example.up_ok
                     Example.proxy Example.mcp_with_model Example.st0)) = [r]
       /\ call_url r = "http://localhost:11434/generate".
Proof.
  destruct (mcp_is_completion Example.loads Example.decoder Example.up_ok
              Example.proxy Example.mcp_with_model Example.st0 eq_refl)
    as [Heq Hfw].
  - exists [("model", JString "llama3"); ("prompt", JString "hi")], (JString "llama3").
    repeat split.
  - split; [exact Heq |].
    destruct (Hfw eq_refl) as (r & Hc & _ & Hu & _).
    exists r. split; [exact Hc | exact Hu].
Defined.

(** * Further properties, function by function *)

(** ** __init__ and the target URL *)

Lemma is_slash_eq c : is_slash c = true -> c = "/"%char.
Proof. unfold is_slash. apply Ascii.eqb_eq. Qed.




(** X1: [rstrip('/')] takes off a run of slashes at the end, all of it:
    the argument is the result followed by slashes only, and the result
    does not end in a slash. *)
Theorem rstrip_slash_strips_all (s : string) :
  exists n,
    s = rstrip_slash s ++ slashes n
    /\ ends_with_slash (rstrip_slash s) = false.
Proof.
  induction s as [| c r (n & Hr & He)].
  - exists 0%nat. split; reflexivity.
  - simpl. destruct (rstrip_slash r) as [| a r'] eqn:E.
    + simpl in Hr. destruct (is_slash c) eqn:Hc.
      * exists (S n). apply is_slash_eq in Hc. subst c. simpl.
        split; [now rewrite <- Hr | reflexivity].
      * exists n. simpl. split; [now rewrite <- Hr | exact Hc].
    + exists n. split.
      * simpl. simpl in Hr. now rewrite <- Hr.
      * exact He.
Qed.

(** X2: [lstrip('/')] takes off a run of slashes at the front, all of it. *)
Theorem lstrip_slash_strips_all (s : string) :
  exists n,
    s = slashes n ++ lstrip_slash s
    /\ starts_with_slash (lstrip_slash s) = false.
Proof.
  induction s as [| c r (n & Hr & He)].
  - exists 0%nat. split; reflexivity.
  - simpl. destruct (is_slash c) eqn:Hc.
    + exists (S n). apply is_slash_eq in Hc. subst c. simpl.
      split; [now rewrite <- Hr | exact He].
    + exists 0%nat. simpl. split; [reflexivity | exact Hc].
Qed.


(** ** forward_request *)

Ltac run_forward :=
  unfold forward_request, try_except, request_read, bind, ret, raise,
    session_post, session_request, response_read, logger_error;
  unfold bind, ret, raise.

Ltac close_attempt :=
  cbn [snd calls logged closed is_Exception exc_class exc_str];
  split;
  [ auto
  | first [ left; reflexivity
          | right; eexists (Exc RuntimeError _); cbn [exc_str]; reflexivity ] ].

(** X4: one call of [forward_request] makes at most one attempt on the
    upstream, the request built from the inbound one, and writes at most one
    log record; what was sent and logged before stays as it was. *)
Theorem forward_request_one_attempt
    (decoder : Decoder) (upstream : Upstream) (self : MCPProxy) (request : Request)
    (endpoint : string) (st : State) :
  (calls (snd (forward_request decoder upstream self request endpoint st)) = calls st
   \/ calls (snd (forward_request decoder upstream self request endpoint st))
      = (calls st ++ [outbound self request endpoint])%list)
  /\ (logged (snd (forward_request decoder upstream self request endpoint st)) = logged st
      \/ exists e,
           logged (snd (forward_request decoder upstream self request endpoint st))
           = (logged st
              ++ [("Error forwarding request to " ++ endpoint ++ ": " ++ exc_str e)%string])%list).
Proof.
  run_forward.
  destruct (req_read_error request) as [e |]; cbn [snd calls logged closed].
  - destruct (is_Exception e); close_attempt.
  - destruct (session self) as [[[|]] |]; cbn [snd calls logged closed];
      try close_attempt.
    fold (outbound self request endpoint).
    destruct (upstream (List.length (calls st)) (outbound self request endpoint))
      as [c | e]; cbn [snd calls logged closed].
    + destruct (read_payload decoder c) as [body | e];
        [| destruct (is_Exception e)]; close_attempt.
    + destruct (is_Exception e); close_attempt.
Qed.

(** X5: without a session that is open (before startup, after cleanup)
    [forward_request] answers 500 and attempts nothing. *)
Theorem forward_request_without_session
    (decoder : Decoder) (upstream : Upstream) (self : MCPProxy) (request : Request)
    (endpoint : string) (st : State) :
  ~ session_open self ->
  (forall e, req_read_error request = Some e -> is_Exception e = true) ->
  exists msg,
    forward_request decoder upstream self request endpoint st =
      (Ok (web_Response_text 500 "Internal Server Error"), record_logged st msg).
Proof.
  intros Hs Hr. unfold session_open in Hs. run_forward.
  destruct (req_read_error request) as [e |].
  - rewrite (Hr e eq_refl). eexists. reflexivity.
  - destruct (session self) as [[[|]] |];
      cbn [closed is_Exception exc_class]; try (eexists; reflexivity).
    now contradiction Hs.
Qed.

Lemma forward_request_without_session_witness :
  exists msg,
    forward_request Example.decoder Example.up_ok (app_proxy (cleanup_app Example.app))
      Example.chat_with_model "chat" Example.st0 =
      (Ok (web_Response_text 500 "Internal Server Error"),
       record_logged Example.st0 msg).
Proof.
  apply (forward_request_without_session Example.decoder Example.up_ok
           (app_proxy (cleanup_app Example.app)) Example.chat_with_model "chat"
           Example.st0).
  - intros H. discriminate H.
  - intros e H. discriminate H.
Defined.

(** X6: when the inbound body cannot be read, [forward_request] answers 500,
    logs the error, and attempts nothing on the upstream. *)
Theorem forward_request_unread_body
    (decoder : Decoder) (upstream : Upstream) (self : MCPProxy) (request : Request)
    (endpoint : string) (st : State) (e : PyExc) :
  req_read_error request = Some e ->
  is_Exception e = true ->
  forward_request decoder upstream self request endpoint st =
    (Ok (web_Response_text 500 "Internal Server Error"),
     record_logged st
       ("Error forwarding request to " ++ endpoint ++ ": " ++ exc_str e)).
Proof.
  intros Hr He. run_forward. now rewrite Hr, He.
Qed.

Lemma forward_request_unread_body_witness :
  forward_request Example.decoder Example.up_ok Example.proxy Example.oversized "chat" Example.st0 =
    (Ok (web_Response_text 500 "Internal Server Error"),
     record_logged Example.st0
       "Error forwarding request to chat: Request Entity Too Large").
Proof.
  apply (forward_request_unread_body Example.decoder Example.up_ok Example.proxy Example.oversized
           "chat" Example.st0 Example.too_large);
    reflexivity.
Defined.

(** X7: when the upstream has answered and its payload then breaks off,
    the status it sent is dropped: the reply is the 500 of the proxy, after
    the one attempt. *)
Theorem forward_request_broken_payload
    (decoder : Decoder) (upstream : Upstream) (self : MCPProxy) (request : Request)
    (endpoint : string) (st : State) (c : ClientResponse) (e : PyExc) :
  session_open self ->
  req_read_error request = None ->
  upstream (List.length (calls st)) (outbound self request endpoint) = Responded c ->
  up_read_error c = Some e ->
  is_Exception e = true ->
  forward_request decoder upstream self request endpoint st =
    (Ok (web_Response_text 500 "Internal Server Error"),
     record_logged (record_call st (outbound self request endpoint))
       ("Error forwarding request to " ++ endpoint ++ ": " ++ exc_str e)).
Proof.
  intros Hs Hr Hu Hc He. unfold session_open in Hs. run_forward.
  rewrite Hr, Hs. cbn [closed].
  fold (outbound self request endpoint). rewrite Hu.
  unfold read_payload. rewrite Hc, He. reflexivity.
Qed.

Lemma forward_request_broken_payload_witness :
  forward_request Example.decoder Example.up_broken Example.proxy Example.chat_with_model "chat"
    Example.st0 =
    (Ok (web_Response_text 500 "Internal Server Error"),
     record_logged
       (record_call Example.st0 (outbound Example.proxy Example.chat_with_model "chat"))
       "Error forwarding request to chat: Response payload is not completed").
Proof.
  apply (forward_request_broken_payload Example.decoder Example.up_broken Example.proxy
           Example.chat_with_model "chat" Example.st0 Example.reply_broken
           Example.payload_error);
    reflexivity.
Defined.

(** ** handle_mcp_request *)

Ltac run_mcp :=
  unfold handle_mcp_request, try_except, request_json, request_read, py_get,
    bind, ret, raise, logger_error;
  unfold bind, ret, raise.

(** The handler, case by case. *)
Lemma handle_mcp_request_table loads decoder upstream self request st :
  handle_mcp_request loads decoder upstream self request st =
    match req_read_error request with
    | Some e =>
        if is_Exception e then
          (Ok (web_Response_text 500 "Internal Server Error"),
           record_logged st ("Error handling MCP request: " ++ exc_str e))
        else (Raise e, st)
    | None =>
        match loads (List.concat (req_chunks request)) with
        | Raise e =>
            if is_Exception e then
              (Ok (web_Response_text 500 "Internal Server Error"),
               record_logged st ("Error handling MCP request: " ++ exc_str e))
            else (Raise e, st)
        | Ok (JObject d) =>
            match dict_get d "model" with
            | Some v =>
                if truthy v then forward_request decoder upstream self request "generate" st
                else (Ok (web_Response_text 400 "Model name required"), st)
            | None => (Ok (web_Response_text 400 "Model name required"), st)
            end
        | Ok other =>
            (Ok (web_Response_text 500 "Internal Server Error"),
             record_logged st
               ("Error handling MCP request: '" ++ type_name other
                ++ "' object has no attribute 'get'"))
        end
    end.
Proof.
  destruct (req_read_error request) as [e |] eqn:Hr.
  - run_mcp. rewrite Hr. now destruct (is_Exception e).
  - destruct (loads (List.concat (req_chunks request))) as [j | e] eqn:Hl.
    + destruct j as [| b | z | f | s | l | d];
        try (run_mcp; rewrite Hr; cbv beta iota; rewrite Hl; reflexivity).
      destruct (dict_get d "model") as [v |] eqn:Hd.
      * destruct (truthy v) eqn:Hv.
        -- apply handle_mcp_request_valid; [exact Hr |].
           exists d, v. auto.
        -- apply (handle_mcp_request_rejected loads decoder upstream self request st d Hr Hl).
           unfold lacks_model. now rewrite Hd.
      * apply (handle_mcp_request_rejected loads decoder upstream self request st d Hr Hl).
        unfold lacks_model. now rewrite Hd.
    + run_mcp. rewrite Hr. cbv beta iota. rewrite Hl. now destruct (is_Exception e).
Qed.

(** X8: the /mcp handler attempts nothing on the upstream unless the body
    could be read and names a model. *)
Theorem mcp_sends_only_with_model
    (loads : list byte -> result json) (decoder : Decoder) (upstream : Upstream)
    (self : MCPProxy) (request : Request) (st : State) :
  calls (snd (handle_mcp_request loads decoder upstream self request st)) = calls st
  \/ (req_read_error request = None /\ has_model loads request).
Proof.
  rewrite handle_mcp_request_table.
  destruct (req_read_error request) as [e |].
  - left. now destruct (is_Exception e).
  - destruct (loads (List.concat (req_chunks request))) as [j | e] eqn:Hl.
    + destruct j as [| b | z | f | s | l | d]; try (left; reflexivity).
      destruct (dict_get d "model") as [v |] eqn:Hd; [| left; reflexivity].
      destruct (truthy v) eqn:Hv; [| left; reflexivity].
      right. split; [reflexivity |]. exists d, v. auto.
    + left. now destruct (is_Exception e).
Qed.

(** X9: a body that is JSON but no object (a list, a string, a number,
    [true], [null]) is answered by /mcp with 500, not 400: [get] fails on
    it, and the catch-all takes over before anything is sent. *)
Theorem mcp_non_object_is_500
    (loads : list byte -> result json) (decoder : Decoder) (upstream : Upstream)
    (self : MCPProxy) (request : Request) (st : State) (j : json) :
  req_read_error request = None ->
  loads (List.concat (req_chunks request)) = Ok j ->
  (forall d, j <> JObject d) ->
  handle_mcp_request loads decoder upstream self request st =
    (Ok (web_Response_text 500 "Internal Server Error"),
     record_logged st
       ("Error handling MCP request: '" ++ type_name j
        ++ "' object has no attribute 'get'")).
Proof.
  intros Hr Hl Hj. rewrite handle_mcp_request_table, Hr, Hl.
  destruct j as [| b | z | f | s | l | d]; try reflexivity.
  now contradiction (Hj d).
Qed.

Lemma mcp_non_object_is_500_witness :
  handle_mcp_request Example.loads Example.decoder Example.up_ok Example.proxy
    (Example.post "/mcp" [] [encode "[1, 2]"]) Example.st0 =
    (Ok (web_Response_text 500 "Internal Server Error"),
     record_logged Example.st0
       "Error handling MCP request: 'list' object has no attribute 'get'").
Proof.
  apply (mcp_non_object_is_500 Example.loads Example.decoder Example.up_ok Example.proxy
           (Example.post "/mcp" [] [encode "[1, 2]"]) Example.st0
           (JArray [JInt 1; JInt 2]));
    try reflexivity.
  intros d H. discriminate H.
Defined.

(** X10: the /mcp handler has three replies and no other: the 400 of the
    model check, the 500 of a catch-all, and the answer of the upstream's
    "generate" endpoint (its status, and as body what [response.read()]
    returned); no [Exception] leaves it. *)
Theorem mcp_reply_kinds
    (loads : list byte -> result json) (decoder : Decoder) (upstream : Upstream)
    (self : MCPProxy) (request : Request) (st : State) :
  match fst (handle_mcp_request loads decoder upstream self request st) with
  | Ok resp =>
      resp = web_Response_text 400 "Model name required"
      \/ resp = web_Response_text 500 "Internal Server Error"
      \/ exists c,
           upstream (List.length (calls st)) (outbound self request "generate")
           = Responded c
           /\ resp_status resp = up_status c
           /\ read_payload decoder c = Ok (resp_body resp)
  | Raise e => is_Exception e = false
  end.
Proof.
  rewrite handle_mcp_request_table.
  destruct (req_read_error request) as [e |].
  - destruct (is_Exception e) eqn:He; simpl; auto.
  - destruct (loads (List.concat (req_chunks request))) as [j | e].
    + destruct j as [| b | z | f | s | l | d]; simpl; auto.
      destruct (dict_get d "model") as [v |]; simpl; auto.
      destruct (truthy v); simpl; auto.
      pose proof (forward_request_cases decoder upstream self request "generate" st) as H.
      destruct (fst (forward_request decoder upstream self request "generate" st))
        as [resp | e]; trivial.
      destruct H as [H | (c & body & Hu & Hc & H)]; auto.
      right. right. exists c. subst resp. auto.
    + destruct (is_Exception e) eqn:He; simpl; auto.
Qed.

(** ** handle_health_check *)

Ltac run_health :=
  unfold handle_health_check, try_except, session_get, session_request,
    bind, ret, raise, logger_error;
  unfold bind, ret, raise.

(** X11: without an open session the health check answers 503, the reply
    of a failed probe (and not the 500 of the other handlers), and attempts
    nothing. *)
Theorem health_check_without_session
    (upstream : Upstream) (self : MCPProxy) (request : Request) (st : State) :
  ~ session_open self ->
  exists msg,
    handle_health_check upstream self request st =
      (Ok (web_Response_text 503 "Service Unavailable"), record_logged st msg).
Proof.
  intros Hs. unfold session_open in Hs. run_health.
  destruct (session self) as [[[|]] |];
    cbn [closed is_Exception exc_class]; try (eexists; reflexivity).
  now contradiction Hs.
Qed.

Lemma health_check_without_session_witness :
  exists msg,
    handle_health_check Example.up_ok
      (MCPProxy_init "http://localhost:11434" "http://localhost:3000")
      Example.get_health Example.st0 =
      (Ok (web_Response_text 503 "Service Unavailable"),
       record_logged Example.st0 msg).
Proof.
  apply (health_check_without_session Example.up_ok
           (MCPProxy_init "http://localhost:11434" "http://localhost:3000")
           Example.get_health Example.st0).
  intros H. discriminate H.
Defined.

(** X12: whatever the state of the proxy and of the upstream, the health
    check has two replies and no other, 200 "OK" and 503 "Service
    Unavailable", lets no [Exception] out, and sends its probe at most
    once. *)
Theorem health_reply_kinds
    (upstream : Upstream) (self : MCPProxy) (request : Request) (st : State) :
  match fst (handle_health_check upstream self request st) with
  | Ok resp =>
      resp = web_Response_text 200 "OK"
      \/ resp = web_Response_text 503 "Service Unavailable"
  | Raise e => is_Exception e = false
  end
  /\ (calls (snd (handle_health_check upstream self request st)) = calls st
      \/ calls (snd (handle_health_check upstream self request st))
         = (calls st ++ [probe self])%list).
Proof.
  run_health.
  destruct (session self) as [[[|]] |];
    cbn [fst snd calls closed is_Exception exc_class]; auto.
  fold (probe self).
  destruct (upstream (List.length (calls st)) (probe self)) as [c | e];
    cbn [fst snd calls].
  - destruct (Z.eqb (up_status c) 200); cbn [fst snd calls]; auto.
  - destruct (is_Exception e) eqn:He; cbn [fst snd calls]; auto.
Qed.

(** ** create_app: routes *)

Ltac decide_string p lit :=
  destruct (string_dec p lit) as [-> | ?].

(** Decide the comparisons between two literals, and those only. *)
Ltac eval_literal_eqb :=
  repeat match goal with
         | |- context [String.eqb ?a ?b] =>
             let v := eval vm_compute in (String.eqb a b) in
             match v with
             | true => change (String.eqb a b) with true
             | false => change (String.eqb a b) with false
             end
         end;
  cbn [find filter route_method route_handler route_path].

Lemma eqb_lit_false (lit p : string) : p <> lit -> String.eqb lit p = false.
Proof. intros H. apply String.eqb_neq. congruence. Qed.

(** X13: the route table answers for five pairs of method and path, each
    with its handler, and for no other: paths match to the letter (no
    trailing slash, no other case), GET and HEAD reach the health check. *)
Theorem resolve_routes_complete (method path : string) (h : Handler) :
  resolve routes method path = inl h <->
  (method = "POST" /\ path = "/mcp" /\ h = Hmcp)
  \/ (method = "POST" /\ path = "/chat" /\ h = Hchat)
  \/ (method = "POST" /\ path = "/completion" /\ h = Hcompletion)
  \/ (method = "GET" /\ path = "/health" /\ h = Hhealth)
  \/ (method = "HEAD" /\ path = "/health" /\ h = Hhealth).
Proof.
  split.
  - unfold resolve, routes, add_post, add_get.
    cbn [List.app filter route_path].
    decide_string path "/mcp";
      [| rewrite (eqb_lit_false "/mcp" path) by assumption;
         decide_string path "/chat";
         [| rewrite (eqb_lit_false "/chat" path) by assumption;
            decide_string path "/completion";
            [| rewrite (eqb_lit_false "/completion" path) by assumption;
               decide_string path "/health";
               [| rewrite (eqb_lit_false "/health" path) by assumption ] ] ] ];
      eval_literal_eqb; try discriminate.
    + destruct (String.eqb "POST" method) eqn:E; [| discriminate].
      apply String.eqb_eq in E. intros H. inversion H. auto.
    + destruct (String.eqb "POST" method) eqn:E; [| discriminate].
      apply String.eqb_eq in E. intros H. inversion H. auto.
    + destruct (String.eqb "POST" method) eqn:E; [| discriminate].
      apply String.eqb_eq in E. intros H. inversion H. auto 6.
    + destruct (String.eqb "GET" method) eqn:E.
      * apply String.eqb_eq in E. intros H. inversion H. auto 8.
      * destruct (String.eqb "HEAD" method) eqn:E'; [| discriminate].
        apply String.eqb_eq in E'. intros H. inversion H. auto 10.
  - intros [(-> & -> & ->) | [(-> & -> & ->) | [(-> & -> & ->)
                                                | [(-> & -> & ->) | (-> & -> & ->)]]]];
      reflexivity.
Qed.

(** X14: a request for a path that is none of the four gets the 404 of the
    router; no handler runs, nothing is sent, nothing is logged. *)
Theorem unknown_path_not_found
    (loads : list byte -> result json) (decoder : Decoder) (upstream : Upstream)
    (app : Application) (request : Request) (st : State) :
  app_routes app = routes ->
  req_path request <> "/mcp" ->
  req_path request <> "/chat" ->
  req_path request <> "/completion" ->
  req_path request <> "/health" ->
  app_handle loads decoder upstream app request st =
    (Ok (web_Response_text 404 "404: Not Found"), st).
Proof.
  intros Hr H1 H2 H3 H4. unfold app_handle. rewrite Hr.
  unfold resolve, routes, add_post, add_get.
  cbn [List.app filter route_path].
  rewrite (eqb_lit_false "/mcp" _ H1), (eqb_lit_false "/chat" _ H2),
    (eqb_lit_false "/completion" _ H3), (eqb_lit_false "/health" _ H4).
  reflexivity.
Qed.

Lemma unknown_path_not_found_witness :
  app_handle Example.loads Example.decoder Example.up_ok Example.app
    (Example.post "/mcp/" Example.inbound_headers Example.body_with_model)
    Example.st0 =
    (Ok (web_Response_text 404 "404: Not Found"), Example.st0).
Proof.
  apply (unknown_path_not_found Example.loads Example.decoder Example.up_ok Example.app
           (Example.post "/mcp/" Example.inbound_headers Example.body_with_model)
           Example.st0 eq_refl);
    intros H; discriminate H.
Defined.

(** X15: a forwarding path asked with a method other than POST gets the 405
    of the router, which names POST as the method allowed; no handler runs,
    nothing is called, nothing is logged. *)
Theorem forwarding_routes_are_post_only
    (loads : list byte -> result json) (decoder : Decoder) (upstream : Upstream)
    (app : Application) (request : Request) (st : State) :
  app_routes app = routes ->
  req_path request = "/mcp" \/ req_path request = "/chat"
  \/ req_path request = "/completion" ->
  req_method request <> "POST" ->
  exists resp,
    app_handle loads decoder upstream app request st = (Ok resp, st)
    /\ resp_status resp = 405%Z
    /\ resp_body resp = encode "405: Method Not Allowed"
    /\ In ("Allow", "POST") (resp_headers resp).
Proof.
  intros Hr Hp Hm. unfold app_handle. rewrite Hr.
  unfold resolve, routes, add_post, add_get.
  destruct Hp as [-> | [-> | ->]];
    cbn [List.app filter route_path]; eval_literal_eqb;
    rewrite (eqb_lit_false "POST" _ Hm);
    (eexists; split; [reflexivity |]);
    repeat split; simpl; auto.
Qed.

Lemma forwarding_routes_are_post_only_witness :
  exists resp,
    app_handle Example.loads Example.decoder Example.up_ok Example.app
      {| req_method := "GET"; req_path := "/chat"; req_headers := [];
         req_chunks := []; req_read_error := None |} Example.st0
    = (Ok resp, Example.st0)
    /\ resp_status resp = 405%Z
    /\ resp_body resp = encode "405: Method Not Allowed"
    /\ In ("Allow", "POST") (resp_headers resp).
Proof.
  apply (forwarding_routes_are_post_only Example.loads Example.decoder Example.up_ok
           Example.app
           {| req_method := "GET"; req_path := "/chat"; req_headers := [];
              req_chunks := []; req_read_error := None |} Example.st0 eq_refl).
  - right. left. reflexivity.
  - intros H. discriminate H.
Defined.

(** ** Every route: what reaches the upstream *)

Lemma forward_request_sent_step decoder upstream self request endpoint st :
  calls (snd (forward_request decoder upstream self request endpoint st)) = calls st
  \/ calls (snd (forward_request decoder upstream self request endpoint st))
     = (calls st ++ [outbound self request endpoint])%list.
Proof.
  run_forward.
  destruct (req_read_error request) as [e |]; cbn [snd calls closed].
  - destruct (is_Exception e); cbn [snd calls]; auto.
  - destruct (session self) as [[[|]] |];
      cbn [snd calls closed is_Exception exc_class]; auto.
    fold (outbound self request endpoint).
    destruct (upstream (List.length (calls st)) (outbound self request endpoint))
      as [c | e]; cbn [snd calls].
    + destruct (read_payload decoder c) as [body | e];
        [| destruct (is_Exception e)]; cbn [snd calls]; auto.
    + destruct (is_Exception e); cbn [snd calls]; auto.
Qed.

Lemma forward_request_closed_sent decoder upstream self request endpoint st :
  ~ session_open self ->
  calls (snd (forward_request decoder upstream self request endpoint st)) = calls st.
Proof.
  intros Hs. unfold session_open in Hs. run_forward.
  destruct (req_read_error request) as [e |]; cbn [snd calls closed].
  - now destruct (is_Exception e).
  - destruct (session self) as [[[|]] |];
      cbn [snd calls closed is_Exception exc_class]; trivial.
    now contradiction Hs.
Qed.

Lemma handle_health_check_sent_step upstream self request st :
  calls (snd (handle_health_check upstream self request st)) = calls st
  \/ calls (snd (handle_health_check upstream self request st))
     = (calls st ++ [probe self])%list.
Proof.
  run_health.
  destruct (session self) as [[[|]] |];
    cbn [snd calls closed is_Exception exc_class]; auto.
  fold (probe self).
  destruct (upstream (List.length (calls st)) (probe self)) as [c | e];
    cbn [snd calls].
  - destruct (Z.eqb (up_status c) 200); cbn [snd calls]; auto.
  - destruct (is_Exception e); cbn [snd calls]; auto.
Qed.

Lemma handle_health_check_closed_sent upstream self request st :
  ~ session_open self ->
  calls (snd (handle_health_check upstream self request st)) = calls st.
Proof.
  intros Hs. unfold session_open in Hs. run_health.
  destruct (session self) as [[[|]] |];
    cbn [snd calls closed is_Exception exc_class]; trivial.
  now contradiction Hs.
Qed.

(** What [handle_mcp_request] leaves in [calls] is what its call of
    [forward_request] leaves there, or nothing new. *)
Lemma handle_mcp_request_sent loads decoder upstream self request st :
  calls (snd (handle_mcp_request loads decoder upstream self request st)) = calls st
  \/ calls (snd (handle_mcp_request loads decoder upstream self request st))
     = calls (snd (forward_request decoder upstream self request "generate" st)).
Proof.
  rewrite handle_mcp_request_table.
  destruct (req_read_error request) as [e |].
  - left. now destruct (is_Exception e).
  - destruct (loads (List.concat (req_chunks request))) as [j | e].
    + destruct j as [| b | z | f | s | l | d]; try (left; reflexivity).
      destruct (dict_get d "model") as [v |]; [| left; reflexivity].
      destruct (truthy v); [right | left]; reflexivity.
    + left. now destruct (is_Exception e).
Qed.

(** X16: handling one inbound request, on whatever route, makes at most
    one call on the client session (one [session.post] or [session.get]);
    the calls made before stay as they were. *)
Theorem one_attempt_per_request
    (loads : list byte -> result json) (decoder : Decoder) (upstream : Upstream)
    (app : Application) (request : Request) (st : State) :
  calls (snd (app_handle loads decoder upstream app request st)) = calls st
  \/ exists r,
       calls (snd (app_handle loads decoder upstream app request st)) = (calls st ++ [r])%list.
Proof.
  unfold app_handle.
  destruct (resolve (app_routes app) (req_method request) (req_path request))
    as [h | reply]; [| left; reflexivity].
  destruct h; simpl run_handler.
  - destruct (handle_mcp_request_sent loads decoder upstream (app_proxy app) request st)
      as [H | H]; [left; exact H |].
    rewrite H.
    destruct (forward_request_sent_step decoder upstream (app_proxy app) request "generate" st)
      as [H' | H']; [left | right; eexists]; exact H'.
  - destruct (forward_request_sent_step decoder upstream (app_proxy app) request "chat" st)
      as [H' | H']; [left | right; eexists]; exact H'.
  - destruct (forward_request_sent_step decoder upstream (app_proxy app) request "generate" st)
      as [H' | H']; [left | right; eexists]; exact H'.
  - destruct (handle_health_check_sent_step upstream (app_proxy app) request st)
      as [H' | H']; [left | right; eexists]; exact H'.
Qed.

(** X17: while the proxy has no open session (before the startup hook has
    run, after the cleanup hook) no request on any route reaches the
    upstream. *)
Theorem no_session_no_attempt
    (loads : list byte -> result json) (decoder : Decoder) (upstream : Upstream)
    (app : Application) (request : Request) (st : State) :
  ~ session_open (app_proxy app) ->
  calls (snd (app_handle loads decoder upstream app request st)) = calls st.
Proof.
  intros Hs. unfold app_handle.
  destruct (resolve (app_routes app) (req_method request) (req_path request))
    as [h | reply]; [| reflexivity].
  destruct h; simpl run_handler.
  - destruct (handle_mcp_request_sent loads decoder upstream (app_proxy app) request st)
      as [H | H]; [exact H |].
    rewrite H. now apply forward_request_closed_sent.
  - now apply forward_request_closed_sent.
  - now apply forward_request_closed_sent.
  - now apply handle_health_check_closed_sent.
Qed.

Lemma no_session_no_attempt_witness :
  calls (snd (app_handle Example.loads Example.decoder Example.up_ok (cleanup_app Example.app)
               Example.mcp_with_model Example.st0)) = []
  /\ calls (snd (app_handle Example.loads Example.decoder Example.up_ok
                  (create_app "http://localhost:11434" "http://localhost:3000")
                  Example.get_health Example.st0)) = [].
Proof.
  split.
  - apply (no_session_no_attempt Example.loads Example.decoder Example.up_ok
             (cleanup_app Example.app) Example.mcp_with_model Example.st0).
    intros H. discriminate H.
  - apply (no_session_no_attempt Example.loads Example.decoder Example.up_ok
             (create_app "http://localhost:11434" "http://localhost:3000")
             Example.get_health Example.st0).
    intros H. discriminate H.
Defined.

(** X18: the proxy keeps nothing from a failure: the same request, handled
    again right after a refused connection, is called again and relayed if
    the upstream now answers. *)
Theorem repeat_after_refusal
    (decoder : Decoder) (upstream : Upstream) (self : MCPProxy) (request : Request)
    (endpoint : string) (st : State) (e : PyExc) (c : ClientResponse)
    (body : list byte) :
  session_open self ->
  req_read_error request = None ->
  upstream (List.length (calls st)) (outbound self request endpoint) = ConnectFailed e ->
  is_Exception e = true ->
  upstream (S (List.length (calls st))) (outbound self request endpoint) = Responded c ->
  read_payload decoder c = Ok body ->
  (forward_request decoder upstream self request endpoint ;;;
   forward_request decoder upstream self request endpoint) st =
    (Ok (web_Response_body body (up_status c)
           (dict_comp (fun _ => true) (up_headers c))),
     {| calls := (calls st ++ [outbound self request endpoint;
                               outbound self request endpoint])%list;
        logged := (logged st
                   ++ [("Error forwarding request to " ++ endpoint ++ ": "
                        ++ exc_str e)%string])%list |}).
Proof.
  intros Hs Hr Hu He Hu' Hc.
  unfold bind.
  rewrite (forward_request_connect_failed decoder upstream self request endpoint st e
             Hs Hr Hu He).
  rewrite (forward_request_relayed decoder upstream self request endpoint _ c body
             Hs Hr).
  - unfold record_call, record_logged. cbn [calls logged].
    now rewrite <- List.app_assoc.
  - cbn [record_logged record_call calls].
    rewrite List.length_app. cbn [List.length].
    now rewrite Nat.add_1_r.
  - exact Hc.
Qed.

Lemma repeat_after_refusal_witness :
  fst ((forward_request Example.decoder Example.up_flaky Example.proxy
          Example.chat_with_model "chat" ;;;
        forward_request Example.decoder Example.up_flaky Example.proxy
          Example.chat_with_model "chat")
         Example.st0)
  = Ok (web_Response_body (List.concat (up_chunks Example.reply_ok)) 200
          (dict_comp (fun _ => true) (up_headers Example.reply_ok))).
Proof.
  apply (f_equal fst
           (repeat_after_refusal Example.decoder Example.up_flaky Example.proxy
              Example.chat_with_model "chat" Example.st0 Example.refused
              Example.reply_ok (List.concat (up_chunks Example.reply_ok))
              eq_refl eq_refl eq_refl eq_refl eq_refl eq_refl)).
Defined.

(** ** The header comprehensions *)

(** X20: a header comprehension invents nothing: each field it yields is a
    field of the message, name and value as they stood there, and one the
    filter admits. *)
Theorem comprehension_fields_from_message
    (keep : string -> bool) (items : Headers) (name value : string) :
  In (name, value) (dict_comp keep items) ->
  In (name, value) items /\ keep name = true.
Proof.
  unfold dict_comp. intros H.
  destruct (fold_comp_entries _ keep items [] name value H) as [[] | H']. exact H'.
Qed.

Lemma comprehension_fields_from_message_witness :
  In ("X-Trace", "b") Example.inbound_headers /\ not_host "X-Trace" = true.
Proof.
  apply (comprehension_fields_from_message not_host Example.inbound_headers
           "X-Trace" "b").
  vm_compute. auto.
Defined.

(** X21: on a message in which no name occurs twice, a header comprehension
    is the filter: the admitted fields, in the order of the message. *)
Theorem comprehension_of_distinct_names
    (keep : string -> bool) (items : Headers) :
  NoDup (map fst items) ->
  dict_comp keep items = filter (fun kv => keep (fst kv)) items.
Proof.
  intros Hnd. unfold dict_comp.
  rewrite (fold_comp_distinct_names _ keep items [] Hnd); [reflexivity |].
  intros k _ [].
Qed.

Lemma comprehension_of_distinct_names_witness :
  dict_comp (fun _ => true) (up_headers Example.reply_ok)
  = up_headers Example.reply_ok.
Proof.
  apply (comprehension_of_distinct_names (fun _ => true)
           (up_headers Example.reply_ok)).
  repeat constructor; simpl; intuition discriminate.
Defined.

(** X22: whatever happens to a forwarding, the call it makes is a
    [session.post] whose [data=] is the whole inbound body and whose
    [headers=] holds no [Host] field, in any mix of letter cases, and no
    field that the inbound request did not have (what aiohttp adds on the
    wire is its own). *)
Theorem session_call_passes_no_host
    (decoder : Decoder) (upstream : Upstream) (self : MCPProxy) (request : Request)
    (endpoint : string) (st : State) (r : SessionCall) :
  In r (calls (snd (forward_request decoder upstream self request endpoint st))) ->
  In r (calls st)
  \/ (call_method r = "POST"
      /\ call_data r = List.concat (req_chunks request)
      /\ forall name value,
           In (name, value) (call_headers r) ->
           lower name <> "host" /\ In (name, value) (req_headers request)).
Proof.
  intros Hin.
  destruct (forward_request_sent_step decoder upstream self request endpoint st) as [H | H];
    rewrite H in Hin; [now left |].
  apply List.in_app_iff in Hin. destruct Hin as [Hin | [<- | []]]; [now left |].
  right. split; [reflexivity |]. split; [reflexivity |].
  intros name value Hnv. cbn [call_headers outbound] in Hnv.
  unfold dict_comp in Hnv.
  destruct (fold_comp_entries _ not_host _ [] name value Hnv) as [[] | [Hi Hk]].
  split; [| exact Hi].
  unfold not_host in Hk. apply Bool.negb_true_iff in Hk.
  now apply String.eqb_neq.
Qed.

Lemma session_call_passes_no_host_witness :
  In (outbound Example.proxy Example.chat_with_model "chat") (calls Example.st0)
  \/ (call_method (outbound Example.proxy Example.chat_with_model "chat") = "POST"
      /\ call_data (outbound Example.proxy Example.chat_with_model "chat")
         = List.concat (req_chunks Example.chat_with_model)
      /\ forall name value,
           In (name, value)
              (call_headers (outbound Example.proxy Example.chat_with_model "chat")) ->
           lower name <> "host"
           /\ In (name, value) (req_headers Example.chat_with_model)).
Proof.
  apply (session_call_passes_no_host Example.decoder Example.up_ok Example.proxy
           Example.chat_with_model "chat" Example.st0
           (outbound Example.proxy Example.chat_with_model "chat")).
  vm_compute. auto.
Defined.
